(** * FocusMate backend: classification, aggregation and the daily report

    A shallow embedding of [backend/main.py] and the properties of its
    specification.

    - Python [int] is [Z] (unbounded); [//] is [Z.div] (both round towards
      minus infinity).
    - Python [float] is IEEE binary64, here [spec_float] with the
      operations of [SpecFloat] at precision 53 and maximal exponent 1024.
    - Python [str] is [string]; a host is written in ASCII, a character
      outside ASCII is its UTF-8 bytes.
    - The outer dictionaries of the store ([date -> user -> record]) are
      [gmap]s.  The [sites] dictionary of a record is an association list
      in insertion order, since the order of a Python [dict] decides how
      ties are ranked in the report.
    - The JSON file, the standard output, the clock and the random source
      are explicit: handlers are computations over a [World]. *)

From Stdlib Require Import ZArith String Ascii List Bool Lia Permutation Sorted.
From Stdlib Require Import SpecFloat.
From stdpp Require Import base option gmap strings list.

Local Open Scope string_scope.
Local Open Scope Z_scope.

(** ** Strings *)

Module Str.

(** [c.lower()] for one ASCII character. *)
Definition lower_ascii (c : ascii) : ascii :=
  let n := nat_of_ascii c in
  if ((65 <=? n)%nat && (n <=? 90)%nat)%bool then ascii_of_nat (n + 32) else c.

(** [s.lower()] on ASCII text: the letters A to Z are lowered.  Python
    also lowers letters outside ASCII, which stay as they are here. *)
Fixpoint lower (s : string) : string :=
  match s with
  | EmptyString => EmptyString
  | String c t => String (lower_ascii c) (lower t)
  end.

(** [needle in hay]: [needle] starts at some position of [hay]. *)
Fixpoint contains (needle hay : string) : bool :=
  String.prefix needle hay ||
  match hay with
  | EmptyString => false
  | String _ t => contains needle t
  end.

(** [c in s] for one character. *)
Fixpoint mem_char (c : ascii) (s : string) : bool :=
  match s with
  | EmptyString => false
  | String a t => Ascii.eqb a c || mem_char c t
  end.

(** [s.replace(c, empty)]: every [c] removed. *)
Fixpoint remove_char (c : ascii) (s : string) : string :=
  match s with
  | EmptyString => EmptyString
  | String a t => if Ascii.eqb a c then remove_char c t else String a (remove_char c t)
  end.

(** The longest prefix of [s] with no character of [stops], and the rest. *)
Fixpoint split_at_any (stops : string) (s : string) : string * string :=
  match s with
  | EmptyString => (EmptyString, EmptyString)
  | String a t =>
      if mem_char a stops then (EmptyString, s)
      else let '(l, r) := split_at_any stops t in (String a l, r)
  end.

(** [s.lstrip(chars)] where [chars] are the characters [p] accepts. *)
Fixpoint lstrip (p : ascii -> bool) (s : string) : string :=
  match s with
  | EmptyString => EmptyString
  | String a t => if p a then lstrip p t else s
  end.

(** The mathematical relation behind [contains]. *)
Definition substring_of (needle hay : string) : Prop :=
  exists pre post : string, hay = (pre ++ needle ++ post)%string.

End Str.

(** ** The URL parser of the Python library

    [urlparse] is not code of this repository.  Everything about the
    handlers is stated for an arbitrary parser: [urlparse_netloc url] is
    [Some n] when [urlparse(url).netloc] is [n] and [None] when [urlparse]
    raises ([ValueError]). *)

Module UrlLib.

Definition is_alpha (c : ascii) : bool :=
  let n := nat_of_ascii c in
  (((65 <=? n) && (n <=? 90)) || ((97 <=? n) && (n <=? 122)))%nat%bool.

Definition is_digit (c : ascii) : bool :=
  let n := nat_of_ascii c in ((48 <=? n) && (n <=? 57))%nat%bool.

(** [scheme_chars]: letters, digits, [+], [-] and [.]. *)
Definition is_scheme_char (c : ascii) : bool :=
  is_alpha c || is_digit c || Str.mem_char c "+-.".

Fixpoint all_chars (p : ascii -> bool) (s : string) : bool :=
  match s with
  | EmptyString => true
  | String a t => p a && all_chars p t
  end.

(** C0 control characters and the space, stripped on the left. *)
Definition is_c0_or_space (c : ascii) : bool := (nat_of_ascii c <=? 32)%nat.

(** The scheme step of [urlsplit]: with [i = url.find(":")], when [i > 0],
    the first character is an ASCII letter and [url[:i]] has scheme
    characters only, the scheme and its colon are cut off. *)
Definition strip_scheme (url : string) : string :=
  if Str.mem_char ":" url then
    let '(pre, rest) := Str.split_at_any ":" url in
    match pre, rest with
    | String c0 _, String _ after =>
        if is_alpha c0 && all_chars is_scheme_char pre then after else url
    | _, _ => url
    end
  else url.

(** The network location computed by CPython's [urllib.parse.urlsplit]
    (version 3.12), which [urlparse] returns unchanged: tabs and newlines
    are removed, a scheme is cut off, and after a leading [//] the netloc
    runs to the first of [/], [?] and [#].  A netloc with one of [[] and
    []] but not the other raises.  Two later checks that can only reject
    more inputs (the text between brackets, the NFKC form of a host
    outside ASCII) are not part of this model. *)
Definition urlsplit_netloc (url : string) : option string :=
  let url := Str.lstrip is_c0_or_space url in
  let url := Str.remove_char "010" (Str.remove_char "013" (Str.remove_char "009" url)) in
  let url := strip_scheme url in
  match url with
  | String "/" (String "/" rest) =>
      let netloc := fst (Str.split_at_any "/?#" rest) in
      if xorb (Str.mem_char "[" netloc) (Str.mem_char "]" netloc) then None
      else Some netloc
  | _ => Some EmptyString
  end.

End UrlLib.

(** ** Static configuration *)

Definition PRODUCTIVE_SITES : list string :=
  [ "coursera.org"; "khanacademy.org"; "udemy.com"; "classroom.google.com";
    "github.com"; "stackoverflow.com"; "wikipedia.org"; "leetcode.com";
    "geeksforgeeks.org"; "towardsdatascience.com"; "arxiv.org"; "openai.com";
    "docs.python.org"; "colab.research.google.com"; "medium.com";
    "codecademy.com"; "freecodecamp.org"; "edx.org"; "pluralsight.com";
    "lynda.com"; "skillshare.com"; "brilliant.org"; "mit.edu"; "stanford.edu" ].

Definition UNPRODUCTIVE_SITES : list string :=
  [ "instagram.com"; "facebook.com"; "twitter.com"; "x.com"; "reddit.com";
    "netflix.com"; "primevideo.com"; "spotify.com"; "hotstar.com";
    "youtube.com"; "tiktok.com"; "snapchat.com"; "discord.com";
    "twitch.tv"; "hulu.com"; "disneyplus.com"; "pinterest.com" ].

Definition MOTIVATIONAL_QUOTES : list string :=
  [ "Focus today, shine tomorrow.";
    "Every moment of focus builds your future.";
    "Productivity is never an accident. It's the result of commitment.";
    "Small progress is still progress. Keep going!";
    "Your focus determines your reality.";
    "Success is the sum of small efforts repeated day in and day out.";
    "The way to get started is to quit talking and begin doing.";
    "Don't watch the clock; do what it does. Keep going.";
    "The future depends on what you do today.";
    "Concentrate all your thoughts upon the work at hand." ].

(** ** Floating point: IEEE binary64 as Python computes with it *)

Module PyFloat.

Definition prec : Z := 53.
Definition emax : Z := 1024.

Definition fmul : spec_float -> spec_float -> spec_float := SFmul prec emax.
Definition fsub : spec_float -> spec_float -> spec_float := SFsub prec emax.
Definition fdiv : spec_float -> spec_float -> spec_float := SFdiv prec emax.

(** An integer as an exact, possibly not yet rounded, binary number. *)
Definition exact_of_Z (z : Z) : spec_float :=
  match z with
  | Z0 => S754_zero false
  | Zpos p => S754_finite false p 0
  | Zneg p => S754_finite true p 0
  end.

(** [float(z)]: the nearest double, ties to even. *)
Definition of_Z (z : Z) : spec_float := binary_normalize prec emax z 0 false.

(** The double that the decimal literal [k/10] denotes, such as [66.7]
    for [k = 667]: the double nearest to the exact quotient. *)
Definition tenths (k : Z) : spec_float := fdiv (exact_of_Z k) (exact_of_Z 10).

(** [n / d] rounded to the nearest integer, ties to the even one
    ([d > 0]). *)
Definition round_half_even_div (n d : Z) : Z :=
  let q := n / d in
  let r := n mod d in
  match (2 * r) ?= d with
  | Lt => q
  | Gt => q + 1
  | Eq => if Z.even q then q else q + 1
  end.

(** [round(x, 1)] on a float: the decimal with one digit after the point
    nearest to the exact value of [x] (ties to the even digit), read back
    as the nearest double.  The sign of a zero result is the sign of [x];
    infinities and NaN are returned as they are. *)
Definition round1 (x : spec_float) : spec_float :=
  match x with
  | S754_finite s m e =>
      let k :=
        match e with
        | Zneg p => round_half_even_div (10 * Zpos m) (2 ^ Zpos p)
        | _ => 10 * Zpos m * 2 ^ e
        end in
      match k with
      | Zpos kp => fdiv (S754_finite s kp 0) (exact_of_Z 10)
      | _ => S754_zero s
      end
  | _ => x
  end.

(** An overflowed result. *)
Definition is_infinity (x : spec_float) : bool :=
  match x with S754_infinity _ => true | _ => false end.

(** [a / b] on two [int]s: the double nearest to the exact quotient;
    [ZeroDivisionError] for [b = 0] and [OverflowError] when the quotient
    is too large for a double. *)
Definition int_truediv (a b : Z) : string + spec_float :=
  if b =? 0 then inl "division by zero"
  else let q := fdiv (exact_of_Z a) (exact_of_Z b) in
       if is_infinity q then inl "integer division result too large for a float"
       else inr q.

End PyFloat.

(** ** The activity store *)

(** The [sites] dictionary of a record, in insertion order. *)
Abbreviation Sites := (list (string * Z)).

(** One [(date, user)] bucket: the JSON object with the keys
    [productive], [unproductive] and [sites]. *)
Record DayUserRecord := mkRecord {
  productive : Z;
  unproductive : Z;
  sites : Sites
}.

(** The whole store: [date -> user -> record]. *)
Abbreviation Store := (gmap string (gmap string DayUserRecord)).

(** [sites.get(host)]. *)
Fixpoint sites_get (host : string) (s : Sites) : option Z :=
  match s with
  | [] => None
  | (k, v) :: t => if String.eqb k host then Some v else sites_get host t
  end.

(** [sites[host] = v]: in place when [host] is a key, else a new last
    entry. *)
Fixpoint sites_set (host : string) (v : Z) (s : Sites) : Sites :=
  match s with
  | [] => [(host, v)]
  | (k, x) :: t =>
      if String.eqb k host then (k, v) :: t else (k, x) :: sites_set host v t
  end.

(** [sum(sites.values())]. *)
Fixpoint sites_total (s : Sites) : Z :=
  match s with
  | [] => 0
  | (_, v) :: t => v + sites_total t
  end.

(** The record [get_user_day_data] creates. *)
Definition empty_record : DayUserRecord :=
  {| productive := 0; unproductive := 0; sites := [] |}.

(** [data.get(date, {}).get(user)]. *)
Definition lookup_user_day (data : Store) (date user : string) : option DayUserRecord :=
  data !! date ≫= (.!! user).

(** [get_user_day_data]: creates [data[date]] and [data[date][user]] when
    absent.  The source returns a reference into [data]; here the changed
    [data] is returned with the record, and later writes through the
    reference go through [update_user_day] at the same [(date, user)]. *)
Definition get_user_day_data (data : Store) (date user : string)
  : Store * DayUserRecord :=
  let data := match data !! date with
              | None => <[date := ∅]> data
              | Some _ => data
              end in
  let day := default ∅ (data !! date) in
  match day !! user with
  | Some r => (data, r)
  | None => (<[date := <[user := empty_record]> day]> data, empty_record)
  end.

(** A write through the reference [data[date][user]]. *)
Definition update_user_day (data : Store) (date user : string)
    (f : DayUserRecord -> DayUserRecord) : Store :=
  match data !! date with
  | Some day =>
      match day !! user with
      | Some r => <[date := <[user := f r]> day]> data
      | None => data
      end
  | None => data
  end.

(** [user_data["productive"] += duration]. *)
Definition add_productive (duration : Z) (r : DayUserRecord) : DayUserRecord :=
  {| productive := productive r + duration;
     unproductive := unproductive r;
     sites := sites r |}.

(** [user_data["unproductive"] += duration]. *)
Definition add_unproductive (duration : Z) (r : DayUserRecord) : DayUserRecord :=
  {| productive := productive r;
     unproductive := unproductive r + duration;
     sites := sites r |}.

(** The per-site update of [log_activity]:
    [if host not in sites: sites[host] = 0] and then
    [sites[host] += duration], where [host] is a key. *)
Definition add_site (host : string) (duration : Z) (r : DayUserRecord) : DayUserRecord :=
  let s := match sites_get host (sites r) with
           | None => sites_set host 0 (sites r)
           | Some _ => sites r
           end in
  {| productive := productive r;
     unproductive := unproductive r;
     sites := sites_set host (default 0 (sites_get host s) + duration) s |}.

(** ** The world of a handler: file, output, clock, save outcome *)

(** What [activity.json] holds, as [load_data] can tell: no file (also a
    file that vanishes before [open], the [FileNotFoundError] case), a
    text that [json.load] rejects with [JSONDecodeError], a file whose
    reading raises something else ([PermissionError],
    [UnicodeDecodeError]), or the JSON text of a store.  A JSON text of
    another shape than a store is outside the model: the program never
    writes one, [load_data] would return it as it is, and a handler would
    raise at its first use of it. *)
Inductive FileState :=
| FMissing
| FNotJson
| FUnreadable (err : string)
| FData (data : Store).

Record World := mkWorld {
  file : FileState;
  stdout : list string
}.

(** What the environment does with one [save_data]: the write succeeds,
    [open] raises and the file stays as it was, or the file was truncated
    by [open] and the dump raises, which leaves a partial text. *)
Inductive SaveOutcome :=
| SaveOk
| SaveOpenFails (err : string)
| SaveWriteFails (err : string).

(** The two clock reads of a handler, [today_str()] and
    [yesterday_str()]. *)
Record Clock := mkClock {
  today_str : string;
  yesterday_str : string
}.

(** The result of a computation: a value or a raised exception. *)
Inductive Result (A : Type) :=
| Ok (a : A)
| Raise (err : string).
Arguments Ok {A} a.
Arguments Raise {A} err.

(** Computations that read and write the world and may raise. *)
Definition M (A : Type) : Type := World -> Result A * World.

Definition ret {A} (a : A) : M A := fun w => (Ok a, w).

Definition bind {A B} (m : M A) (k : A -> M B) : M B :=
  fun w => match m w with
           | (Ok a, w') => k a w'
           | (Raise e, w') => (Raise e, w')
           end.

(** [try: m except Exception as e: h e]. *)
Definition try_except {A} (m : M A) (h : string -> M A) : M A :=
  fun w => match m w with
           | (Ok a, w') => (Ok a, w')
           | (Raise e, w') => h e w'
           end.

(** A pure step that raises or returns. *)
Definition lift {A} (r : string + A) : M A :=
  fun w => match r with
           | inl e => (Raise e, w)
           | inr a => (Ok a, w)
           end.

Notation "'do' x <- m ;; k" := (bind m (fun x => k))
  (at level 10, x name, m at level 99, k at level 200, only parsing).

(** [load_data]: under [file_lock], an absent file and a
    [JSONDecodeError] give the empty store; any other exception of [open]
    or [json.load] leaves the function. *)
Definition load_data : M Store :=
  fun w => match file w with
           | FMissing => (Ok ∅, w)
           | FNotJson => (Ok ∅, w)
           | FUnreadable e => (Raise e, w)
           | FData data => (Ok data, w)
           end.

(** [save_data]: under [file_lock], writes the store; an exception is
    printed and swallowed. *)
Definition save_data (data : Store) (io : SaveOutcome) : M unit :=
  fun w => match io with
           | SaveOk => (Ok tt, {| file := FData data; stdout := stdout w |})
           | SaveOpenFails e =>
               (Ok tt, {| file := file w;
                          stdout := stdout w ++ ["Error saving data: " ++ e] |})
           | SaveWriteFails e =>
               (Ok tt, {| file := FNotJson;
                          stdout := stdout w ++ ["Error saving data: " ++ e] |})
           end.

(** ** Host extraction and classification *)

Section Backend.

Variable urlparse_netloc : string -> option string.

(** [get_host]: the lowercased netloc, ["unknown"] when [urlparse] raises. *)
Definition get_host (url : string) : string :=
  match urlparse_netloc url with
  | Some netloc => Str.lower netloc
  | None => "unknown"
  end.

(** One of the two loops of [is_productive_site]: it returns at the first
    [site] with [site in host]. *)
Definition any_site_in (sites : list string) (host : string) : bool :=
  existsb (fun site => Str.contains site host) sites.

(** The classification of a host: [Some true] productive, [Some false]
    unproductive, [None] neutral. *)
Definition classify_host (host : string) : option bool :=
  if any_site_in PRODUCTIVE_SITES host then Some true
  else if any_site_in UNPRODUCTIVE_SITES host then Some false
  else None.

(** [is_productive_site]: the class of the host of [url]. *)
Definition is_productive_site (url : string) : option bool :=
  classify_host (get_host url).

(** ** Recording an event *)

(** The JSON answer of [/activity]. *)
Inductive ActivityResponse :=
| ActivityOk (classification : option bool) (host : string) (duration_logged : Z)
| ActivityError (message : string).

(** The mutation [log_activity] applies to the loaded store. *)
Definition record_event (data : Store) (today url : string) (duration : Z)
    (user : string) : Store :=
  let '(data, _) := get_user_day_data data today user in
  let classification := is_productive_site url in
  let host := get_host url in
  let data := match classification with
              | Some true => update_user_day data today user (add_productive duration)
              | Some false => update_user_day data today user (add_unproductive duration)
              | None => data
              end in
  update_user_day data today user (add_site host duration).

(** [log_activity]: load, mutate, save, answer; any exception becomes an
    error answer. *)
Definition log_activity (clk : Clock) (url : string) (duration : Z)
    (user : string) (io : SaveOutcome) : M ActivityResponse :=
  try_except
    (do data <- load_data ;;
     let data := record_event data (today_str clk) url duration user in
     do _ <- save_data data io ;;
     ret (ActivityOk (is_productive_site url) (get_host url) duration))
    (fun e => ret (ActivityError e)).

(** One [/activity] request with what the environment did around it. *)
Record Event := mkEvent {
  ev_clock : Clock;
  ev_url : string;
  ev_duration : Z;
  ev_user : string;
  ev_io : SaveOutcome
}.

(** The world one request leaves. *)
Definition log_event (e : Event) (w : World) : World :=
  snd (log_activity (ev_clock e) (ev_url e) (ev_duration e) (ev_user e) (ev_io e) w).

(** A sequence of requests, one after the other. *)
Fixpoint replay (evs : list Event) (w : World) : World :=
  match evs with
  | [] => w
  | e :: t => replay t (log_event e w)
  end.

End Backend.

(** ** The daily report *)

(** The JSON answer of [/analysis/today]; [error] is the key of the
    fallback answer only. *)
Record Report := mkReport {
  productive_minutes : Z;
  unproductive_minutes : Z;
  productivity_percent : spec_float;
  delta_vs_yesterday_percent : option spec_float;
  quote : string;
  by_site : list (string * Z);
  error : option string
}.

(** [(p / t) * 100] on two [int]s. *)
Definition percent_of (p t : Z) : M spec_float :=
  do q <- lift (PyFloat.int_truediv p t) ;;
  ret (PyFloat.fmul q (PyFloat.of_Z 100)).

(** The loop that fills [site_breakdown]: each host with its whole
    minutes, hosts under a minute left out, in the order of the
    dictionary. *)
Fixpoint site_minutes (s : Sites) : list (string * Z) :=
  match s with
  | [] => []
  | (host, seconds) :: t =>
      let minutes := seconds / 60 in
      if 0 <? minutes then (host, minutes) :: site_minutes t
      else site_minutes t
  end.

(** [x] put into a list that is in descending order of minutes, before
    the first entry that does not have more minutes. *)
Fixpoint insert_desc (x : string * Z) (l : list (string * Z)) : list (string * Z) :=
  match l with
  | [] => [x]
  | y :: t => if x.2 <? y.2 then y :: insert_desc x t else x :: y :: t
  end.

(** [l.sort(key=minutes, reverse=True)]: the sort is stable, entries with
    the same minutes keep their order. *)
Fixpoint sort_desc (l : list (string * Z)) : list (string * Z) :=
  match l with
  | [] => []
  | x :: t => insert_desc x (sort_desc t)
  end.

(** [random.choice(pool)] when the random source draws the index
    [rnd mod len(pool)]. *)
Definition random_choice (pool : list string) (rnd : nat) : string :=
  nth (rnd mod length pool)%nat pool EmptyString.

(** The answer when the handler catches an exception. *)
Definition fallback_report (e : string) : Report :=
  {| productive_minutes := 0;
     unproductive_minutes := 0;
     productivity_percent := S754_zero false;
     delta_vs_yesterday_percent := None;
     quote := "Every journey begins with a single step.";
     by_site := [];
     error := Some e |}.

(** The productivity percentage of today: rounded to one decimal, [0.0]
    without a positive total. *)
Definition today_percent (productive_minutes total_minutes : Z) : M spec_float :=
  if 0 <? total_minutes then
    do x <- percent_of productive_minutes total_minutes ;;
    ret (PyFloat.round1 x)
  else ret (S754_zero false).

(** The comparison with yesterday: [data] is the store after
    [get_user_day_data] has run on it. *)
Definition delta_vs_yesterday (data : Store) (yesterday user : string)
    (productivity_percent : spec_float) : M (option spec_float) :=
  match lookup_user_day data yesterday user with
  | Some yesterday_data =>
      let yesterday_productive := productive yesterday_data / 60 in
      let yesterday_unproductive := unproductive yesterday_data / 60 in
      let yesterday_total := yesterday_productive + yesterday_unproductive in
      if 0 <? yesterday_total then
        do yesterday_percent <- percent_of yesterday_productive yesterday_total ;;
        ret (Some (PyFloat.round1 (PyFloat.fsub productivity_percent yesterday_percent)))
      else ret None
  | None => ret None
  end.

(** The body of [get_today_analysis] inside its [try]. *)
Definition analysis_body (clk : Clock) (user : string) (rnd : nat) : M Report :=
  do data <- load_data ;;
  let today := today_str clk in
  let yesterday := yesterday_str clk in
  let '(data, today_data) := get_user_day_data data today user in
  let productive_seconds := productive today_data in
  let unproductive_seconds := unproductive today_data in
  let productive_minutes := productive_seconds / 60 in
  let unproductive_minutes := unproductive_seconds / 60 in
  let total_minutes := productive_minutes + unproductive_minutes in
  do productivity_percent <- today_percent productive_minutes total_minutes ;;
  do delta <- delta_vs_yesterday data yesterday user productivity_percent ;;
  let site_breakdown := sort_desc (site_minutes (sites today_data)) in
  let quote := random_choice MOTIVATIONAL_QUOTES rnd in
  ret {| productive_minutes := productive_minutes;
         unproductive_minutes := unproductive_minutes;
         productivity_percent := productivity_percent;
         delta_vs_yesterday_percent := delta;
         quote := quote;
         by_site := take 10 site_breakdown;
         error := None |}.

(** [get_today_analysis]: it loads the store and never saves it. *)
Definition get_today_analysis (clk : Clock) (user : string) (rnd : nat) : M Report :=
  try_except (analysis_body clk user rnd) (fun e => ret (fallback_report e)).

(** A sequence of report requests, one after the other: the world they
    leave. *)
Fixpoint run_reports (reqs : list (Clock * string * nat)) (w : World) : World :=
  match reqs with
  | [] => w
  | (clk, user, rnd) :: t => run_reports t (snd (get_today_analysis clk user rnd w))
  end.

(** ** Vocabulary of the properties *)

(** Some entry of [sites] is a substring of [host]. *)
Definition matches (sites : list string) (host : string) : Prop :=
  exists site, site ∈ sites /\ Str.substring_of site host.

(** The record change of one event: the classified total, then the
    site. *)
Definition apply_event (classification : option bool) (host : string)
    (duration : Z) (r : DayUserRecord) : DayUserRecord :=
  add_site host duration
    match classification with
    | Some true => add_productive duration r
    | Some false => add_unproductive duration r
    | None => r
    end.

(** The seconds a classification adds to a total. *)
Definition counted (classification wanted : option bool) (duration : Z) : Z :=
  if decide (classification = wanted) then duration else 0.

(** The store the file holds; the empty store when it holds none. *)
Definition persisted (w : World) : Store :=
  match file w with
  | FData data => data
  | _ => ∅
  end.

(** The invariant of a record: the classified seconds are among the
    seconds of its sites. *)
Definition record_inv (r : DayUserRecord) : Prop :=
  productive r + unproductive r <= sites_total (sites r).

Definition store_inv (data : Store) : Prop :=
  forall (date user : string) (r : DayUserRecord),
    lookup_user_day data date user = Some r -> record_inv r.

(** The data model of the store: every number of seconds is [>= 0]. *)
Definition record_nonneg (r : DayUserRecord) : Prop :=
  0 <= productive r /\ 0 <= unproductive r /\ Forall (fun x => 0 <= x.2) (sites r).

Definition store_nonneg (data : Store) : Prop :=
  forall (date user : string) (r : DayUserRecord),
    lookup_user_day data date user = Some r -> record_nonneg r.

(** [p / t * 100] in doubles. *)
Definition raw_percent (p t : Z) : spec_float :=
  PyFloat.fmul (PyFloat.fdiv (PyFloat.exact_of_Z p) (PyFloat.exact_of_Z t))
               (PyFloat.of_Z 100).

(** [round(p / t * 100, 1) if t > 0 else 0.0]. *)
Definition rounded_percent (p t : Z) : spec_float :=
  if 0 <? t then PyFloat.round1 (raw_percent p t) else S754_zero false.

(** The delta of the report: null without a record for yesterday or
    without a whole minute in it, else today's percentage minus
    yesterday's [yp / yt * 100], rounded to one decimal. *)
Definition delta_formula (today_percent : spec_float)
    (yesterday_data : option DayUserRecord) : option spec_float :=
  match yesterday_data with
  | Some y =>
      let yp := productive y / 60 in
      let yt := yp + unproductive y / 60 in
      if 0 <? yt
      then Some (PyFloat.round1 (PyFloat.fsub today_percent (raw_percent yp yt)))
      else None
  | None => None
  end.

(** The delta in the words of the specification: yesterday's percentage
    is computed as today's is, rounded to one decimal, before the
    difference is taken. *)
Definition delta_claimed (today_percent : spec_float)
    (yesterday_data : option DayUserRecord) : option spec_float :=
  match yesterday_data with
  | Some y =>
      let yp := productive y / 60 in
      let yt := yp + unproductive y / 60 in
      if 0 <? yt
      then Some (PyFloat.round1 (PyFloat.fsub today_percent (rounded_percent yp yt)))
      else None
  | None => None
  end.

(** The site list in the words of the specification: every host with its
    seconds floor-divided by 60, the hosts with 0 minutes dropped. *)
Definition nonzero_minutes (s : Sites) : list (string * Z) :=
  filter (fun x => x.2 <> 0) (map (fun x => (x.1, x.2 / 60)) s).

(** Descending order of minutes. *)
Definition desc_minutes (x y : string * Z) : Prop := y.2 <= x.2.

(** The report of a user as a function of the store. *)
Definition expected_report (data : Store) (clk : Clock) (user : string)
    (rnd : nat) : Report :=
  let r := default empty_record (lookup_user_day data (today_str clk) user) in
  let pm := productive r / 60 in
  let um := unproductive r / 60 in
  {| productive_minutes := pm;
     unproductive_minutes := um;
     productivity_percent := rounded_percent pm (pm + um);
     delta_vs_yesterday_percent :=
       delta_formula (rounded_percent pm (pm + um))
         (lookup_user_day data (yesterday_str clk) user);
     quote := random_choice MOTIVATIONAL_QUOTES rnd;
     by_site := take 10 (sort_desc (site_minutes (sites r)));
     error := None |}.

(** A computation that leaves the world as it found it. *)
Definition read_only {A : Type} (m : M A) : Prop := forall w, (m w).2 = w.

(** ** Sample inputs *)

(** A clock on the second of May 2024. *)
Definition demo_clock : Clock :=
  {| today_str := "2024-05-02"; yesterday_str := "2024-05-01" |}.

(** A first start: no file yet, nothing printed. *)
Definition fresh_world : World := {| file := FMissing; stdout := [] |}.

(** Three requests of one day: a productive, an unproductive and a
    neutral host, the last one with a failing save. *)
Definition demo_events : list Event :=
  [ {| ev_clock := demo_clock; ev_url := "https://github.com/rocq";
       ev_duration := 600; ev_user := "guest"; ev_io := SaveOk |};
    {| ev_clock := demo_clock; ev_url := "https://www.youtube.com/watch";
       ev_duration := 300; ev_user := "guest"; ev_io := SaveOk |};
    {| ev_clock := demo_clock; ev_url := "https://example.org/";
       ev_duration := 45; ev_user := "guest"; ev_io := SaveOk |};
    {| ev_clock := demo_clock; ev_url := "https://example.org/";
       ev_duration := 30; ev_user := "ada"; ev_io := SaveOpenFails "disk" |} ].

(** A store with two days of the user [guest] (ten productive and five
    unproductive minutes today, half of the minutes productive yesterday)
    and one day of the user [ada] on three neutral hosts. *)
Definition demo_store : Store :=
  <["2024-05-02" :=
      <["guest" := {| productive := 600; unproductive := 300;
                      sites := [("github.com", 600); ("www.youtube.com", 300)] |}]>
     (<["ada" := {| productive := 0; unproductive := 0;
                    sites := [("a.com", 125); ("b.com", 59); ("c.com", 61)] |}]> ∅)]>
   (<["2024-05-01" :=
       <["guest" := {| productive := 1800; unproductive := 1800;
                       sites := [("github.com", 1800); ("www.youtube.com", 1800)] |}]> ∅]> ∅).

Definition demo_world : World := {| file := FData demo_store; stdout := [] |}.

(** A store where yesterday's percentage, 6.25, lies halfway between two
    decimals: one productive minute of three today, one of sixteen
    yesterday. *)
Definition tie_store : Store :=
  <["2024-05-02" :=
      <["guest" := {| productive := 60; unproductive := 120;
                      sites := [("github.com", 60); ("www.youtube.com", 120)] |}]> ∅]>
   (<["2024-05-01" :=
       <["guest" := {| productive := 60; unproductive := 900;
                       sites := [("github.com", 60); ("www.youtube.com", 900)] |}]> ∅]> ∅).

Definition tie_world : World := {| file := FData tie_store; stdout := [] |}.

(** ** Vocabulary of the further properties *)

(** The hosts of a [sites] dictionary, in insertion order. *)
Definition sites_keys (s : Sites) : list string := map fst s.

(** Every record of the store has each host once. *)
Definition store_keys_nodup (data : Store) : Prop :=
  forall (date user : string) (r : DayUserRecord),
    lookup_user_day data date user = Some r -> NoDup (sites_keys (sites r)).

(** A character of ASCII. *)
Definition is_ascii_char (c : ascii) : bool := (nat_of_ascii c <? 128)%nat.

(** An ASCII capital letter. *)
Definition is_upper (c : ascii) : bool :=
  let n := nat_of_ascii c in ((65 <=? n) && (n <=? 90))%nat%bool.

(** The requests of a list that fall into the bucket [(date, user)]: the
    clock read [date] as today and the user was [user]. *)
Definition in_bucket (date user : string) (e : Event) : Prop :=
  today_str (ev_clock e) = date /\ ev_user e = user.

Definition bucket (date user : string) (evs : list Event) : list Event :=
  filter (in_bucket date user) evs.

(** The seconds of a list of requests. *)
Fixpoint total_duration (evs : list Event) : Z :=
  match evs with
  | [] => 0
  | e :: t => ev_duration e + total_duration t
  end.

(** The class and the host of a request. *)
Definition event_class (urlparse_netloc : string -> option string) (e : Event)
  : option bool :=
  is_productive_site urlparse_netloc (ev_url e).

Definition event_host (urlparse_netloc : string -> option string) (e : Event)
  : string :=
  get_host urlparse_netloc (ev_url e).

(** One request on the record of its bucket, as [record_event] changes
    it. *)
Definition step (urlparse_netloc : string -> option string)
    (o : option DayUserRecord) (e : Event) : option DayUserRecord :=
  Some (apply_event (event_class urlparse_netloc e) (event_host urlparse_netloc e)
          (ev_duration e) (default empty_record o)).

(** Two records with the same totals and the same seconds for every
    host; the order of the hosts may differ. *)
Definition same_totals (r1 r2 : DayUserRecord) : Prop :=
  productive r1 = productive r2 /\
  unproductive r1 = unproductive r2 /\
  sites_total (sites r1) = sites_total (sites r2) /\
  forall h, default 0 (sites_get h (sites r1)) = default 0 (sites_get h (sites r2)).

(** A double between [0.0] and [100.0], both included. *)
Definition in_percent_range (x : spec_float) : bool :=
  SFleb (S754_zero false) x && SFleb x (PyFloat.of_Z 100).

(** A double whose size is at most 100, written with an exponent from
    -1200 to 0. *)
Definition within_100 (x : spec_float) : bool :=
  match x with
  | S754_zero _ => true
  | S754_finite _ m e =>
      (-1200 <=? e) && (e <=? 0) && (Zpos m * 2 ^ (e + 1200) <=? 100 * 2 ^ 1200)
  | _ => false
  end.

(** A double between [-100.0] and [100.0], both included. *)
Definition in_delta_range (x : spec_float) : bool :=
  SFleb (SFopp (PyFloat.of_Z 100)) x && SFleb x (PyFloat.of_Z 100).

(** The message of the [UnicodeDecodeError] for a file that starts with
    the byte 0xFF. *)
Definition garbled_error : string :=
  "'utf-8' codec can't decode byte 0xff in position 0: invalid start byte".

(** [activity.json] holds the one byte 0xFF: the file exists and opens,
    and reading it raises [UnicodeDecodeError]. *)
Definition garbled_world : World :=
  {| file := FUnreadable garbled_error; stdout := [] |}.

(** * Properties *)

(** ** Substring test *)

Lemma append_cons (c : ascii) (s t : string) :
  (String c s ++ t)%string = String c (s ++ t)%string.
Proof. reflexivity. Qed.

Lemma append_nil (t : string) : (EmptyString ++ t)%string = t.
Proof. reflexivity. Qed.

Lemma prefix_cons (c d : ascii) (p s : string) :
  String.prefix (String c p) (String d s)
  = if Ascii.ascii_dec c d then String.prefix p s else false.
Proof. reflexivity. Qed.

Lemma prefix_iff (p s : string) :
  String.prefix p s = true <-> exists post, s = (p ++ post)%string.
Proof.
  revert s. induction p as [|c p IH]; intros s.
  - split; [intros _; exists s; reflexivity | now destruct s].
  - destruct s as [|d s].
    + split; [discriminate | intros [post H]; rewrite append_cons in H; discriminate].
    + rewrite prefix_cons. destruct (Ascii.ascii_dec c d) as [Heq|Hne].
      * rewrite IH. split; intros [post H]; exists post;
          rewrite append_cons in *; congruence.
      * split; [discriminate | intros [post H]; rewrite append_cons in H; congruence].
Qed.

Lemma contains_iff (needle hay : string) :
  Str.contains needle hay = true <-> Str.substring_of needle hay.
Proof.
  unfold Str.substring_of. induction hay as [|c hay IH].
  - cbn [Str.contains]. rewrite orb_false_r, prefix_iff. split.
    + intros [post H]. exists EmptyString, post. exact H.
    + intros [pre [post H]]. destruct pre as [|d pre].
      * exists post. exact H.
      * rewrite append_cons in H. discriminate.
  - cbn [Str.contains]. rewrite orb_true_iff, prefix_iff, IH. split.
    + intros [[post H] | [pre [post H]]].
      * exists EmptyString, post. exact H.
      * exists (String c pre), post. rewrite append_cons. congruence.
    + intros [pre [post H]]. destruct pre as [|d pre].
      * left. exists post. exact H.
      * right. exists pre, post. rewrite append_cons in H. congruence.
Qed.

Lemma any_site_in_iff (sites : list string) (host : string) :
  any_site_in sites host = true <-> matches sites host.
Proof.
  unfold any_site_in, matches. rewrite existsb_exists. split.
  - intros [s [Hin Hc]]. exists s. split; [now apply list_elem_of_In | now apply contains_iff].
  - intros [s [Hin Hc]]. exists s. split; [now apply list_elem_of_In | now apply contains_iff].
Qed.

Lemma any_site_in_false_iff (sites : list string) (host : string) :
  any_site_in sites host = false <-> ~ matches sites host.
Proof.
  rewrite <- any_site_in_iff. destruct (any_site_in sites host); split; congruence.
Qed.

(** C2: the classifier answers productive exactly when an entry of the
    productive list is a substring of the host, unproductive exactly when
    none is and an entry of the unproductive list is, neutral exactly when
    neither list has such an entry; the productive list wins for a host
    that matches both; [is_productive_site] classifies the extracted host,
    and the host [sub.github.com] is productive. *)
Theorem classify_host_spec :
  (forall host : string,
     (classify_host host = Some true <-> matches PRODUCTIVE_SITES host) /\
     (classify_host host = Some false <->
        ~ matches PRODUCTIVE_SITES host /\ matches UNPRODUCTIVE_SITES host) /\
     (classify_host host = None <->
        ~ matches PRODUCTIVE_SITES host /\ ~ matches UNPRODUCTIVE_SITES host)) /\
  (forall (urlparse_netloc : string -> option string) (url : string),
     is_productive_site urlparse_netloc url
     = classify_host (get_host urlparse_netloc url)) /\
  classify_host "sub.github.com" = Some true /\
  get_host UrlLib.urlsplit_netloc "https://sub.github.com/focus" = "sub.github.com" /\
  is_productive_site UrlLib.urlsplit_netloc "https://sub.github.com/focus" = Some true.
Proof.
  split; [|repeat split; reflexivity].
  intros host. unfold classify_host.
  rewrite <- !any_site_in_false_iff, <- !any_site_in_iff.
  destruct (any_site_in PRODUCTIVE_SITES host), (any_site_in UNPRODUCTIVE_SITES host);
    intuition congruence.
Qed.

(** A host matching both lists is productive: ["github.com.x.com"]
    contains ["github.com"] and ["x.com"]. *)
Example classify_both_lists :
  any_site_in PRODUCTIVE_SITES "github.com.x.com" = true /\
  any_site_in UNPRODUCTIVE_SITES "github.com.x.com" = true /\
  classify_host "github.com.x.com" = Some true.
Proof. repeat split; reflexivity. Qed.

(** ** The sites dictionary *)

Lemma sites_get_set_eq (host : string) (v : Z) (s : Sites) :
  sites_get host (sites_set host v s) = Some v.
Proof.
  induction s as [|[k x] t IH]; simpl.
  - now rewrite String.eqb_refl.
  - destruct (String.eqb k host) eqn:E; simpl; rewrite E; [reflexivity | exact IH].
Qed.

Lemma sites_get_set_ne (host host' : string) (v : Z) (s : Sites) :
  host' <> host -> sites_get host' (sites_set host v s) = sites_get host' s.
Proof.
  intros Hne. induction s as [|[k x] t IH]; simpl.
  - destruct (String.eqb host host') eqn:E; [apply String.eqb_eq in E; congruence | reflexivity].
  - destruct (String.eqb k host) eqn:E; simpl.
    + apply String.eqb_eq in E. subst k.
      destruct (String.eqb host host') eqn:E'; [apply String.eqb_eq in E'; congruence | reflexivity].
    + now rewrite IH.
Qed.

Lemma sites_total_set (host : string) (v : Z) (s : Sites) :
  sites_total (sites_set host v s) = sites_total s + v - default 0 (sites_get host s).
Proof.
  induction s as [|[k x] t IH]; simpl.
  - lia.
  - destruct (String.eqb k host) eqn:E; simpl; [lia | rewrite IH; lia].
Qed.

(** What [add_site] does to the dictionary. *)
Lemma add_site_get_eq (host : string) (d : Z) (r : DayUserRecord) :
  sites_get host (sites (add_site host d r))
  = Some (default 0 (sites_get host (sites r)) + d).
Proof.
  unfold add_site; simpl. rewrite sites_get_set_eq.
  destruct (sites_get host (sites r)) eqn:E; simpl.
  - now rewrite E.
  - now rewrite sites_get_set_eq.
Qed.

Lemma add_site_get_ne (host host' : string) (d : Z) (r : DayUserRecord) :
  host' <> host ->
  sites_get host' (sites (add_site host d r)) = sites_get host' (sites r).
Proof.
  intros Hne. unfold add_site; simpl. rewrite sites_get_set_ne by exact Hne.
  destruct (sites_get host (sites r)); [reflexivity | now apply sites_get_set_ne].
Qed.

Lemma add_site_total (host : string) (d : Z) (r : DayUserRecord) :
  sites_total (sites (add_site host d r)) = sites_total (sites r) + d.
Proof.
  unfold add_site; simpl. rewrite sites_total_set.
  destruct (sites_get host (sites r)) eqn:E; simpl.
  - rewrite E. simpl. lia.
  - rewrite sites_get_set_eq, sites_total_set, E. simpl. lia.
Qed.

(** ** Lookups in the store *)

Lemma lookup_user_day_insert (data : Store) (date user date' user' : string)
    (day : gmap string DayUserRecord) (r : DayUserRecord) :
  data !! date = Some day ->
  lookup_user_day (<[date := <[user := r]> day]> data) date' user'
  = if decide (date' = date /\ user' = user) then Some r
    else lookup_user_day data date' user'.
Proof.
  intros Hday. unfold lookup_user_day.
  destruct (decide (date' = date)) as [->|Hd].
  - rewrite lookup_insert_eq, Hday. simpl.
    destruct (decide (user' = user)) as [->|Hu].
    + rewrite lookup_insert_eq. now rewrite decide_True.
    + rewrite lookup_insert_ne by congruence. rewrite decide_False by tauto. reflexivity.
  - rewrite lookup_insert_ne by congruence. rewrite decide_False by tauto. reflexivity.
Qed.

(** [get_user_day_data] returns today's record, the empty one when there
    was none, and afterwards the store holds it at [(date, user)]; nothing
    else changes. *)
Lemma get_user_day_data_snd (data : Store) (date user : string) :
  (get_user_day_data data date user).2
  = default empty_record (lookup_user_day data date user).
Proof.
  unfold get_user_day_data, lookup_user_day.
  destruct (data !! date) as [day|] eqn:Hd; simpl.
  - rewrite Hd; simpl. destruct (day !! user); reflexivity.
  - rewrite lookup_insert_eq; simpl. rewrite lookup_empty. reflexivity.
Qed.

Lemma get_user_day_data_lookup (data : Store) (date user date' user' : string) :
  lookup_user_day (get_user_day_data data date user).1 date' user'
  = if decide (date' = date /\ user' = user)
    then Some (default empty_record (lookup_user_day data date user))
    else lookup_user_day data date' user'.
Proof.
  unfold get_user_day_data.
  destruct (data !! date) as [day|] eqn:Hd; simpl.
  - rewrite Hd; simpl. destruct (day !! user) as [r|] eqn:Hu; simpl.
    + case_decide as H; [|reflexivity]. destruct H as [-> ->].
      unfold lookup_user_day. rewrite Hd; simpl. now rewrite Hu.
    + rewrite (lookup_user_day_insert _ _ _ _ _ _ _ Hd).
      case_decide; [|reflexivity]. unfold lookup_user_day. rewrite Hd; simpl. now rewrite Hu.
  - rewrite lookup_insert_eq; simpl. rewrite lookup_empty.
    rewrite insert_insert_eq.
    unfold lookup_user_day; simpl.
    destruct (decide (date' = date)) as [->|Hne].
    + rewrite lookup_insert_eq, Hd; simpl.
      destruct (decide (user' = user)) as [->|Hu].
      * rewrite lookup_insert_eq. now rewrite decide_True.
      * rewrite lookup_insert_ne by congruence. rewrite lookup_empty.
        now rewrite decide_False by tauto.
    + rewrite lookup_insert_ne by congruence. now rewrite decide_False by tauto.
Qed.

Lemma update_user_day_lookup (data : Store) (date user date' user' : string)
    (f : DayUserRecord -> DayUserRecord) :
  lookup_user_day (update_user_day data date user f) date' user'
  = if decide (date' = date /\ user' = user)
    then f <$> lookup_user_day data date user
    else lookup_user_day data date' user'.
Proof.
  unfold update_user_day.
  destruct (data !! date) as [day|] eqn:Hd.
  - destruct (day !! user) as [r|] eqn:Hu.
    + rewrite (lookup_user_day_insert _ _ _ _ _ _ _ Hd).
      case_decide; [|reflexivity]. unfold lookup_user_day. rewrite Hd; simpl. now rewrite Hu.
    + case_decide as H; [|reflexivity]. destruct H as [-> ->].
      unfold lookup_user_day. rewrite Hd; simpl. now rewrite Hu.
  - case_decide as H; [|reflexivity]. destruct H as [-> ->].
    unfold lookup_user_day. now rewrite Hd.
Qed.

Lemma record_event_lookup (urlparse_netloc : string -> option string)
    (data : Store) (today url : string) (d : Z) (user date' user' : string) :
  lookup_user_day (record_event urlparse_netloc data today url d user) date' user'
  = if decide (date' = today /\ user' = user)
    then Some (apply_event (is_productive_site urlparse_netloc url)
                 (get_host urlparse_netloc url) d
                 (default empty_record (lookup_user_day data today user)))
    else lookup_user_day data date' user'.
Proof.
  unfold record_event, apply_event.
  pose proof (get_user_day_data_lookup data today user) as Hg.
  destruct (get_user_day_data data today user) as [data1 r1]; simpl in Hg.
  rewrite update_user_day_lookup.
  destruct (is_productive_site urlparse_netloc url) as [[|]|];
    rewrite ?update_user_day_lookup, !Hg;
    case_decide as H; try reflexivity;
    rewrite ?decide_True by tauto; reflexivity.
Qed.

(** ** Recording an event *)

Section Recording.

Variable urlparse_netloc : string -> option string.

(** A request on a readable file answers [ok] and hands the mutated store
    to [save_data]. *)
Lemma log_activity_run (clk : Clock) (url : string) (d : Z) (user : string)
    (io : SaveOutcome) (w : World) (data : Store) :
  load_data w = (Ok data, w) ->
  log_activity urlparse_netloc clk url d user io w
  = (Ok (ActivityOk (is_productive_site urlparse_netloc url)
           (get_host urlparse_netloc url) d),
     (save_data (record_event urlparse_netloc data (today_str clk) url d user) io w).2).
Proof.
  intros Hload. unfold log_activity, try_except, bind. rewrite Hload.
  destruct io; reflexivity.
Qed.

(** A request on an unreadable file answers [error] and changes
    nothing. *)
Lemma log_activity_unreadable (clk : Clock) (url : string) (d : Z) (user : string)
    (io : SaveOutcome) (w : World) (e : string) :
  file w = FUnreadable e ->
  log_activity urlparse_netloc clk url d user io w = (Ok (ActivityError e), w).
Proof.
  intros Hf. unfold log_activity, try_except, bind, load_data. now rewrite Hf.
Qed.

Lemma apply_event_fields (c : option bool) (h : string) (d : Z) (r : DayUserRecord) :
  productive (apply_event c h d r) = productive r + counted c (Some true) d /\
  unproductive (apply_event c h d r) = unproductive r + counted c (Some false) d /\
  sites_get h (sites (apply_event c h d r)) = Some (default 0 (sites_get h (sites r)) + d) /\
  (forall h', h' <> h -> sites_get h' (sites (apply_event c h d r)) = sites_get h' (sites r)) /\
  sites_total (sites (apply_event c h d r)) = sites_total (sites r) + d.
Proof.
  unfold apply_event, counted.
  repeat split.
  - destruct c as [[|]|]; simpl; repeat case_decide; try congruence; lia.
  - destruct c as [[|]|]; simpl; repeat case_decide; try congruence; lia.
  - rewrite add_site_get_eq. destruct c as [[|]|]; reflexivity.
  - intros h' Hne. rewrite add_site_get_ne by exact Hne. destruct c as [[|]|]; reflexivity.
  - rewrite add_site_total. destruct c as [[|]|]; reflexivity.
Qed.

(** C1: an event [(url, d, user)] recorded on a readable store and saved
    answers with the classification and the host [h], and in the saved
    store today's record of the user has: [productive] raised by [d] when
    [h] is productive and unchanged otherwise, [unproductive] raised by
    [d] when [h] is unproductive and unchanged otherwise, [sites[h]]
    raised by [d] from its value or from 0 when absent; the other sites
    and all other records are as before. *)
Theorem log_activity_accumulates (clk : Clock) (url : string) (d : Z)
    (user : string) (w : World) (data : Store) :
  0 <= d ->
  load_data w = (Ok data, w) ->
  let h := get_host urlparse_netloc url in
  let c := is_productive_site urlparse_netloc url in
  let today := today_str clk in
  let before := default empty_record (lookup_user_day data today user) in
  exists (data' : Store) (after : DayUserRecord),
    log_activity urlparse_netloc clk url d user SaveOk w
    = (Ok (ActivityOk c h d), {| file := FData data'; stdout := stdout w |}) /\
    lookup_user_day data' today user = Some after /\
    match c with
    | Some true =>
        productive after = productive before + d /\
        unproductive after = unproductive before
    | Some false =>
        productive after = productive before /\
        unproductive after = unproductive before + d
    | None =>
        productive after = productive before /\
        unproductive after = unproductive before
    end /\
    sites_get h (sites after) = Some (default 0 (sites_get h (sites before)) + d) /\
    (forall h', h' <> h -> sites_get h' (sites after) = sites_get h' (sites before)) /\
    (forall date' user', ~ (date' = today /\ user' = user) ->
       lookup_user_day data' date' user' = lookup_user_day data date' user').
Proof.
  intros _ Hload h c today before.
  exists (record_event urlparse_netloc data today url d user),
         (apply_event c h d before).
  split; [rewrite (log_activity_run _ _ _ _ _ _ _ Hload); reflexivity|].
  split; [rewrite record_event_lookup, decide_True by tauto; reflexivity|].
  destruct (apply_event_fields c h d before) as (Hp & Hu & Hs & Ho & _).
  split.
  { rewrite Hp, Hu. unfold counted.
    destruct c as [[|]|]; repeat case_decide; try congruence; lia. }
  repeat split; try assumption.
  intros date' user' Hne. now rewrite record_event_lookup, decide_False.
Qed.

End Recording.

(** [counted] spelled out for the three classes. *)
Lemma counted_cases (d : Z) :
  counted (Some true) (Some true) d = d /\ counted (Some true) (Some false) d = 0 /\
  counted (Some false) (Some true) d = 0 /\ counted (Some false) (Some false) d = d /\
  counted None (Some true) d = 0 /\ counted None (Some false) d = 0.
Proof. repeat split; reflexivity. Qed.

Lemma log_activity_accumulates_witness :
  exists (data' : Store) (after : DayUserRecord),
    log_activity UrlLib.urlsplit_netloc demo_clock "https://github.com/rocq" 90 "guest" SaveOk fresh_world
    = (Ok (ActivityOk (Some true) "github.com" 90), {| file := FData data'; stdout := [] |}) /\
    lookup_user_day data' "2024-05-02" "guest" = Some after /\
    productive after = 90 /\ unproductive after = 0 /\
    sites_get "github.com" (sites after) = Some 90.
Proof.
  destruct (log_activity_accumulates UrlLib.urlsplit_netloc demo_clock
              "https://github.com/rocq" 90 "guest" fresh_world ∅)
    as (data' & after & H1 & H2 & H3 & H4 & _).
  - lia.
  - reflexivity.
  - exists data', after.
    change (is_productive_site UrlLib.urlsplit_netloc "https://github.com/rocq")
      with (Some true) in H3.
    destruct H3 as [H3 H3'].
    repeat split; assumption.
Defined.

(** ** The invariant of the store *)

Section Invariant.

Variable urlparse_netloc : string -> option string.

Lemma apply_event_inv (c : option bool) (h : string) (d : Z) (r : DayUserRecord) :
  0 <= d -> record_inv r -> record_inv (apply_event c h d r).
Proof.
  unfold record_inv. intros Hd Hr.
  destruct (apply_event_fields c h d r) as (Hp & Hu & _ & _ & Ht).
  rewrite Hp, Hu, Ht. unfold counted. repeat case_decide; try congruence; lia.
Qed.

Lemma empty_record_inv : record_inv empty_record.
Proof. unfold record_inv; simpl; lia. Qed.

Lemma store_inv_empty : store_inv ∅.
Proof.
  intros date user r H. unfold lookup_user_day in H.
  rewrite lookup_empty in H. discriminate.
Qed.

Lemma record_event_inv (data : Store) (today url : string) (d : Z) (user : string) :
  0 <= d -> store_inv data ->
  store_inv (record_event urlparse_netloc data today url d user).
Proof.
  intros Hd Hinv date' user' r. rewrite record_event_lookup.
  case_decide.
  - intros [= <-]. apply apply_event_inv; [exact Hd|].
    destruct (lookup_user_day data today user) as [r0|] eqn:E; simpl.
    + exact (Hinv _ _ _ E).
    + exact empty_record_inv.
  - apply Hinv.
Qed.

(** The store [load_data] returns is the persisted one, unless the file
    cannot be read. *)
Lemma load_data_cases (w : World) :
  load_data w = (Ok (persisted w), w) \/ exists e, file w = FUnreadable e.
Proof.
  unfold load_data, persisted. destruct (file w); eauto.
Qed.

Lemma log_event_inv (e : Event) (w : World) :
  0 <= ev_duration e -> store_inv (persisted w) ->
  store_inv (persisted (log_event urlparse_netloc e w)).
Proof.
  intros Hd Hinv. unfold log_event.
  destruct (load_data_cases w) as [Hload | [err Hf]].
  - rewrite (log_activity_run _ _ _ _ _ _ _ _ Hload).
    destruct (ev_io e); simpl.
    + now apply record_event_inv.
    + exact Hinv.
    + exact store_inv_empty.
  - now rewrite (log_activity_unreadable _ _ _ _ _ _ _ _ Hf).
Qed.

Lemma replay_inv (evs : list Event) (w : World) :
  Forall (fun e => 0 <= ev_duration e) evs ->
  store_inv (persisted w) ->
  store_inv (persisted (replay urlparse_netloc evs w)).
Proof.
  intros Hall. revert w. induction Hall as [|e evs He _ IH]; intros w Hinv; simpl.
  - exact Hinv.
  - apply IH. now apply log_event_inv.
Qed.

(** C9: in every store reached from the empty store by recording events
    with durations [>= 0], whatever the clock, the users and the outcome
    of each save, each record present has
    [productive + unproductive <= sum(sites.values())]. *)
Theorem sites_cover_classified (evs : list Event) (w0 : World)
    (date user : string) (r : DayUserRecord) :
  load_data w0 = (Ok ∅, w0) ->
  Forall (fun e => 0 <= ev_duration e) evs ->
  lookup_user_day (persisted (replay urlparse_netloc evs w0)) date user = Some r ->
  productive r + unproductive r <= sites_total (sites r).
Proof.
  intros Hload Hall Hr.
  refine (replay_inv evs w0 Hall _ date user r Hr).
  destruct (load_data_cases w0) as [H | [e Hf]].
  - rewrite Hload in H. injection H as <-. exact store_inv_empty.
  - unfold load_data in Hload. rewrite Hf in Hload. discriminate.
Qed.

End Invariant.

Lemma sites_cover_classified_witness :
  exists r : DayUserRecord,
    lookup_user_day (persisted (replay UrlLib.urlsplit_netloc demo_events fresh_world))
      "2024-05-02" "guest" = Some r /\
    productive r = 600 /\ unproductive r = 300 /\ sites_total (sites r) = 945 /\
    productive r + unproductive r <= sites_total (sites r).
Proof.
  eexists. split; [vm_compute; reflexivity|].
  repeat split.
  eapply (sites_cover_classified UrlLib.urlsplit_netloc demo_events fresh_world
            "2024-05-02" "guest").
  - reflexivity.
  - repeat constructor; simpl; lia.
  - vm_compute. reflexivity.
Defined.

(** ** Input that is not a URL *)

Section Degraded.

Variable urlparse_netloc : string -> option string.

(** [get_host] is total: the sentinel when the parser raises, the
    lowercased netloc otherwise. *)
Lemma get_host_cases (url : string) :
  (urlparse_netloc url = None /\ get_host urlparse_netloc url = "unknown") \/
  (exists netloc, urlparse_netloc url = Some netloc /\
                  get_host urlparse_netloc url = Str.lower netloc).
Proof.
  unfold get_host. destruct (urlparse_netloc url); eauto.
Qed.

(** C4, as the code has it: when the parser raises the host is
    ["unknown"], when it finds no host the host is the empty string;
    either way [get_host] returns, the host is neutral, and the event is
    recorded with its duration under that host and the two totals
    unchanged. *)
Theorem malformed_url_recorded (clk : Clock) (url : string) (d : Z)
    (user : string) (w : World) (data : Store) :
  urlparse_netloc url = None \/ urlparse_netloc url = Some EmptyString ->
  load_data w = (Ok data, w) ->
  let h := get_host urlparse_netloc url in
  let today := today_str clk in
  let before := default empty_record (lookup_user_day data today user) in
  h = (if urlparse_netloc url is None then "unknown" else EmptyString) /\
  is_productive_site urlparse_netloc url = None /\
  exists (data' : Store) (after : DayUserRecord),
    log_activity urlparse_netloc clk url d user SaveOk w
    = (Ok (ActivityOk None h d), {| file := FData data'; stdout := stdout w |}) /\
    lookup_user_day data' today user = Some after /\
    productive after = productive before /\
    unproductive after = unproductive before /\
    sites_get h (sites after) = Some (default 0 (sites_get h (sites before)) + d).
Proof.
  intros Hparse Hload h today before.
  assert (Hh : h = (if urlparse_netloc url is None then "unknown" else EmptyString)).
  { unfold h, get_host. destruct Hparse as [-> | ->]; reflexivity. }
  assert (Hc : is_productive_site urlparse_netloc url = None).
  { unfold is_productive_site. fold h. rewrite Hh.
    destruct Hparse as [-> | ->]; reflexivity. }
  split; [exact Hh|]. split; [exact Hc|].
  exists (record_event urlparse_netloc data today url d user),
         (apply_event None h d before).
  split.
  { rewrite (log_activity_run _ _ _ _ _ _ _ _ Hload). rewrite Hc. reflexivity. }
  split.
  { rewrite record_event_lookup, decide_True by tauto. rewrite Hc. reflexivity. }
  destruct (apply_event_fields None h d before) as (Hp & Hu & Hs & _ & _).
  rewrite Hp, Hu, Hs. unfold counted. rewrite !decide_False by discriminate.
  repeat split; lia.
Qed.

End Degraded.

(** The claim with its sentinel for an input without host fails:
    [urlparse("example.com/page")] has an empty netloc, [get_host] returns
    the empty string, and the seconds are booked under the empty host, not
    under ["unknown"]. *)
Lemma no_host_is_not_unknown :
  UrlLib.urlsplit_netloc "example.com/page" = Some EmptyString /\
  get_host UrlLib.urlsplit_netloc "example.com/page" <> "unknown" /\
  exists r : DayUserRecord,
    lookup_user_day
      (persisted (log_activity UrlLib.urlsplit_netloc demo_clock "example.com/page"
                    75 "guest" SaveOk fresh_world).2)
      "2024-05-02" "guest" = Some r /\
    sites_get "unknown" (sites r) = None /\
    sites_get EmptyString (sites r) = Some 75.
Proof.
  split; [reflexivity|]. split; [discriminate|].
  eexists. split; [vm_compute; reflexivity|]. split; reflexivity.
Qed.

Lemma malformed_url_recorded_witness :
  get_host UrlLib.urlsplit_netloc "http://[::1/x" = "unknown" /\
  is_productive_site UrlLib.urlsplit_netloc "http://[::1/x" = None /\
  exists (data' : Store) (after : DayUserRecord),
    log_activity UrlLib.urlsplit_netloc demo_clock "http://[::1/x" 75 "guest" SaveOk fresh_world
    = (Ok (ActivityOk None "unknown" 75), {| file := FData data'; stdout := [] |}) /\
    lookup_user_day data' "2024-05-02" "guest" = Some after /\
    productive after = 0 /\ unproductive after = 0 /\
    sites_get "unknown" (sites after) = Some 75.
Proof.
  destruct (malformed_url_recorded UrlLib.urlsplit_netloc demo_clock "http://[::1/x"
              75 "guest" fresh_world ∅)
    as (Hh & Hc & data' & after & H1 & H2 & H3 & H4 & H5).
  - left. reflexivity.
  - reflexivity.
  - split; [exact Hh|]. split; [exact Hc|].
    exists data', after. repeat split; assumption.
Defined.

(** ** Integer division never overflows on a share of a total *)

Module FloatFacts.
Import PyFloat.

Lemma digits2_pos_log2 (p : positive) :
  Zpos (digits2_pos p) = Z.log2 (Zpos p) + 1.
Proof.
  induction p as [p IH | p IH |]; simpl.
  - rewrite Pos2Z.inj_succ, IH. destruct p; simpl in *; lia.
  - rewrite Pos2Z.inj_succ, IH. destruct p; simpl in *; lia.
  - reflexivity.
Qed.

Lemma Zdigits2_nonneg (m : Z) : 0 <= Zdigits2 m.
Proof. destruct m; simpl; lia. Qed.

Lemma Zdigits2_le (m k : Z) : 0 <= k -> 0 <= m < 2 ^ k -> Zdigits2 m <= k.
Proof.
  intros Hk [Hm Hlt]. destruct m as [|p|p]; simpl; [lia| |lia].
  rewrite digits2_pos_log2.
  assert (Z.log2 (Zpos p) < k) by (apply Z.log2_lt_pow2; lia). lia.
Qed.

Lemma lt_pow2_Zdigits2 (m : Z) : 0 <= m -> m < 2 ^ Zdigits2 m.
Proof.
  intros Hm. destruct m as [|p|p]; simpl; [lia| |lia].
  rewrite digits2_pos_log2.
  pose proof (Z.log2_spec (Zpos p) ltac:(lia)) as H.
  replace (Z.log2 (Zpos p) + 1) with (Z.succ (Z.log2 (Zpos p))) by lia. lia.
Qed.

Lemma shr_1_m (mrs : shr_record) :
  0 <= shr_m mrs -> shr_m (shr_1 mrs) = shr_m mrs / 2.
Proof.
  destruct mrs as [m r s]; simpl. intros Hm.
  destruct m as [|[p|p|]|p]; simpl; try lia; try reflexivity.
  - rewrite Pos2Z.inj_xI. apply Z.div_unique with (r := 1); lia.
  - rewrite Pos2Z.inj_xO. apply Z.div_unique with (r := 0); lia.
Qed.

Lemma iter_shr_1_m (p : positive) (mrs : shr_record) :
  0 <= shr_m mrs ->
  shr_m (SpecFloat.iter_pos shr_1 p mrs) = shr_m mrs / 2 ^ Zpos p.
Proof.
  revert mrs. induction p as [p IH | p IH |]; intros mrs Hm; simpl SpecFloat.iter_pos.
  - assert (H1 : 0 <= shr_m (shr_1 mrs)).
    { rewrite shr_1_m by exact Hm. apply Z.div_pos; lia. }
    assert (H2 : 0 <= shr_m (SpecFloat.iter_pos shr_1 p (shr_1 mrs))).
    { rewrite IH by exact H1. apply Z.div_pos; lia. }
    rewrite IH by exact H2. rewrite IH by exact H1. rewrite shr_1_m by exact Hm.
    assert (0 < 2 ^ Zpos p) by (apply Z.pow_pos_nonneg; lia).
    rewrite !Z.div_div by lia. f_equal.
    replace (Zpos p~1) with (1 + Zpos p + Zpos p) by lia.
    rewrite !Z.pow_add_r by lia. change (2 ^ 1) with 2. lia.
  - assert (H2 : 0 <= shr_m (SpecFloat.iter_pos shr_1 p mrs)).
    { rewrite IH by exact Hm. apply Z.div_pos; lia. }
    rewrite IH by exact H2. rewrite IH by exact Hm.
    assert (0 < 2 ^ Zpos p) by (apply Z.pow_pos_nonneg; lia).
    rewrite Z.div_div by lia. f_equal.
    replace (Zpos p~0) with (Zpos p + Zpos p) by lia.
    rewrite Z.pow_add_r by lia. reflexivity.
  - rewrite shr_1_m by exact Hm. reflexivity.
Qed.

Lemma shr_record_of_loc_m (m : Z) (l : location) : shr_m (shr_record_of_loc m l) = m.
Proof. destruct l as [|[| |]]; reflexivity. Qed.

(** The exponent after [shr_fexp]. *)
Lemma shr_fexp_exp (m e : Z) (l : location) :
  (shr_fexp prec emax m e l).2 = Z.max e (fexp prec emax (Zdigits2 m + e)).
Proof.
  unfold shr_fexp, shr.
  destruct (fexp prec emax (Zdigits2 m + e) - e) eqn:E; simpl; lia.
Qed.

(** The mantissa after [shr_fexp]. *)
Lemma shr_fexp_m (m e : Z) (l : location) :
  0 <= m ->
  shr_m (shr_fexp prec emax m e l).1
  = m / 2 ^ (Z.max e (fexp prec emax (Zdigits2 m + e)) - e).
Proof.
  intros Hm. unfold shr_fexp, shr.
  destruct (fexp prec emax (Zdigits2 m + e) - e) eqn:E; simpl.
  - rewrite shr_record_of_loc_m. replace (Z.max _ _ - e) with 0 by lia.
    now rewrite Z.div_1_r.
  - rewrite iter_shr_1_m by (rewrite shr_record_of_loc_m; exact Hm).
    rewrite shr_record_of_loc_m. f_equal. f_equal. lia.
  - rewrite shr_record_of_loc_m. replace (Z.max _ _ - e) with 0 by lia.
    now rewrite Z.div_1_r.
Qed.

Lemma round_nearest_even_bounds (m : Z) (l : location) :
  m <= round_nearest_even m l <= m + 1.
Proof.
  unfold round_nearest_even. destruct l as [|[| |]]; try lia.
  destruct (Z.even m); lia.
Qed.

(** A small number does not round to an infinity. *)
Lemma binary_round_aux_small (s : bool) (m e : Z) (l : location) :
  0 <= m -> e <= 0 -> Zdigits2 m + e <= 2 ->
  is_infinity (binary_round_aux prec emax s m e l) = false.
Proof.
  intros Hm He Hd. unfold binary_round_aux.
  pose proof (shr_fexp_exp m e l) as He1.
  pose proof (shr_fexp_m m e l Hm) as Hm1.
  destruct (shr_fexp prec emax m e l) as [mrs1 e1]. simpl in He1, Hm1.
  set (m1 := round_nearest_even (shr_m mrs1) (loc_of_shr_record mrs1)).
  pose proof (round_nearest_even_bounds (shr_m mrs1) (loc_of_shr_record mrs1)) as Hb.
  fold m1 in Hb.
  pose proof (shr_fexp_exp m1 e1 loc_Exact) as He2.
  destruct (shr_fexp prec emax m1 e1 loc_Exact) as [mrs2 e2]. simpl in He2.
  destruct (shr_m mrs2); try reflexivity.
  assert (Hfexp : forall x, fexp prec emax x = Z.max (x - 53) (-1074)).
  { intros x. unfold fexp, emin, prec, emax. lia. }
  assert (He1' : e1 <= 0) by (rewrite He1, Hfexp; lia).
  assert (Hge : e <= e1) by lia.
  assert (H0 : 0 <= shr_m mrs1) by (rewrite Hm1; apply Z.div_pos; lia).
  assert (Hd1 : Zdigits2 m1 + e1 <= 4).
  { assert (Hlt : m1 < 2 ^ (Z.max (Zdigits2 m - (e1 - e)) 0 + 1)).
    { assert (shr_m mrs1 < 2 ^ Z.max (Zdigits2 m - (e1 - e)) 0).
      { rewrite Hm1, <- He1.
        pose proof (lt_pow2_Zdigits2 m Hm) as Hlt.
        pose proof (Zdigits2_nonneg m) as Hn.
        apply Z.div_lt_upper_bound; [lia|].
        rewrite <- Z.pow_add_r by lia.
        eapply Z.lt_le_trans; [exact Hlt|].
        apply Z.pow_le_mono_r; lia. }
      rewrite Z.pow_add_r by lia. lia. }
    assert (Zdigits2 m1 <= Z.max (Zdigits2 m - (e1 - e)) 0 + 1)
      by (apply Zdigits2_le; lia).
    lia. }
  assert (e2 <= 971) by (rewrite He2, Hfexp; lia).
  destruct (Z.leb_spec e2 (emax - prec)); [reflexivity | unfold emax, prec in *; lia].
Qed.

(** [p / t] with [0 <= p <= t] and [0 < t] has a finite double. *)
Lemma share_is_finite (p t : Z) :
  0 <= p <= t -> 0 < t ->
  is_infinity (fdiv (exact_of_Z p) (exact_of_Z t)) = false.
Proof.
  intros [Hp Hpt] Ht.
  destruct t as [|mt|mt]; try lia.
  destruct p as [|mp|mp]; try lia; [reflexivity|].
  unfold fdiv, exact_of_Z, SFdiv, SFdiv_core_binary.
  set (ez := Z.min (fexp prec emax (Zdigits2 (Zpos mp) + 0 - (Zdigits2 (Zpos mt) + 0))) (0 - 0)).
  assert (Hez : ez <= 0) by (unfold ez; lia).
  set (m' := match 0 - 0 - ez with
             | 0 => Zpos mp
             | Zpos _ => Z.shiftl (Zpos mp) (0 - 0 - ez)
             | Zneg _ => 0
             end).
  assert (Hm' : m' = Zpos mp * 2 ^ (- ez)).
  { unfold m'. destruct (0 - 0 - ez) eqn:E; try lia.
    - replace (- ez) with 0 by lia. lia.
    - rewrite Z.shiftl_mul_pow2 by lia. f_equal. f_equal. lia. }
  pose proof (Z_div_mod m' (Zpos mt) ltac:(lia)) as Hdm.
  destruct (Z.div_eucl m' (Zpos mt)) as [q r]. destruct Hdm as [Hq Hr].
  simpl xorb.
  assert (H2 : 0 < 2 ^ (- ez)) by (apply Z.pow_pos_nonneg; lia).
  assert (Hq0 : 0 <= q) by nia.
  assert (Hq1 : q <= 2 ^ (- ez)) by nia.
  apply binary_round_aux_small; [exact Hq0 | exact Hez |].
  assert (Zdigits2 q <= - ez + 1).
  { apply Zdigits2_le; [lia|]. rewrite Z.pow_add_r by lia. lia. }
  lia.
Qed.

(** So Python's [p / t] returns there. *)
Lemma int_truediv_share (p t : Z) :
  0 <= p <= t -> 0 < t ->
  int_truediv p t = inr (fdiv (exact_of_Z p) (exact_of_Z t)).
Proof.
  intros Hp Ht. unfold int_truediv.
  destruct (Z.eqb_spec t 0); [lia|].
  simpl. now rewrite (share_is_finite p t Hp Ht).
Qed.

End FloatFacts.

(** ** Running the report *)

Lemma read_only_ret {A} (a : A) : read_only (ret a).
Proof. intros w. reflexivity. Qed.

Lemma read_only_lift {A} (r : string + A) : read_only (lift r).
Proof. intros w. unfold lift. destruct r; reflexivity. Qed.

Lemma read_only_bind {A B} (m : M A) (k : A -> M B) :
  read_only m -> (forall a, read_only (k a)) -> read_only (bind m k).
Proof.
  intros Hm Hk w. unfold bind. specialize (Hm w).
  destruct (m w) as [[a|e] w']; simpl in Hm; subst w'; [apply Hk | reflexivity].
Qed.

Lemma read_only_try_except {A} (m : M A) (h : string -> M A) :
  read_only m -> (forall e, read_only (h e)) -> read_only (try_except m h).
Proof.
  intros Hm Hh w. unfold try_except. specialize (Hm w).
  destruct (m w) as [[a|e] w']; simpl in Hm; subst w'; [reflexivity | apply Hh].
Qed.

Lemma read_only_load_data : read_only load_data.
Proof. intros w. unfold load_data. destruct (file w); reflexivity. Qed.

Create HintDb read_only.
#[local] Hint Resolve read_only_ret read_only_lift read_only_load_data : read_only.
#[local] Hint Extern 2 (read_only (bind _ _)) =>
  apply read_only_bind; [|intros ?] : read_only.
#[local] Hint Extern 2 (read_only (try_except _ _)) =>
  apply read_only_try_except; [|intros ?] : read_only.

Lemma read_only_percent_of (p t : Z) : read_only (percent_of p t).
Proof. unfold percent_of. auto with read_only. Qed.

Lemma read_only_today_percent (p t : Z) : read_only (today_percent p t).
Proof.
  unfold today_percent. pose proof read_only_percent_of.
  destruct (0 <? t); auto with read_only.
Qed.

Lemma read_only_delta_vs_yesterday (data : Store) (yesterday user : string)
    (x : spec_float) :
  read_only (delta_vs_yesterday data yesterday user x).
Proof.
  unfold delta_vs_yesterday. pose proof read_only_percent_of.
  destruct (lookup_user_day data yesterday user) as [y|]; [|auto with read_only].
  simpl. destruct (0 <? _); auto with read_only.
Qed.

Lemma read_only_analysis_body (clk : Clock) (user : string) (rnd : nat) :
  read_only (analysis_body clk user rnd).
Proof.
  unfold analysis_body.
  pose proof read_only_today_percent. pose proof read_only_delta_vs_yesterday.
  apply read_only_bind; [apply read_only_load_data|]. intros data.
  destruct (get_user_day_data data (today_str clk) user) as [data1 r].
  auto with read_only.
Qed.

Lemma percent_of_run (p t : Z) (w : World) :
  0 <= p <= t -> 0 < t -> percent_of p t w = (Ok (raw_percent p t), w).
Proof.
  intros Hp Ht. unfold percent_of, bind, lift.
  now rewrite (FloatFacts.int_truediv_share p t Hp Ht).
Qed.

Lemma today_percent_run (p t : Z) (w : World) :
  0 <= p <= t -> today_percent p t w = (Ok (rounded_percent p t), w).
Proof.
  intros Hp. unfold today_percent, rounded_percent.
  destruct (Z.ltb_spec 0 t); [|reflexivity].
  unfold bind. now rewrite percent_of_run by lia.
Qed.

Lemma delta_vs_yesterday_run (data : Store) (yesterday user : string)
    (x : spec_float) (w : World) :
  (forall y, lookup_user_day data yesterday user = Some y ->
             0 <= productive y /\ 0 <= unproductive y) ->
  delta_vs_yesterday data yesterday user x w
  = (Ok (delta_formula x (lookup_user_day data yesterday user)), w).
Proof.
  intros Hy. unfold delta_vs_yesterday, delta_formula.
  destruct (lookup_user_day data yesterday user) as [y|]; [|reflexivity].
  destruct (Hy y eq_refl) as [Hp Hu]. simpl.
  assert (0 <= productive y / 60) by (apply Z.div_pos; lia).
  assert (0 <= unproductive y / 60) by (apply Z.div_pos; lia).
  destruct (Z.ltb_spec 0 (productive y / 60 + unproductive y / 60)); [|reflexivity].
  unfold bind. now rewrite percent_of_run by lia.
Qed.

Lemma empty_record_nonneg : record_nonneg empty_record.
Proof. unfold record_nonneg; simpl. repeat split; try lia. constructor. Qed.

Lemma store_nonneg_empty : store_nonneg ∅.
Proof.
  intros date user r H. unfold lookup_user_day in H.
  rewrite lookup_empty in H. discriminate.
Qed.

Lemma today_record_nonneg (data : Store) (date user : string) :
  store_nonneg data ->
  record_nonneg (default empty_record (lookup_user_day data date user)).
Proof.
  intros Hnn. destruct (lookup_user_day data date user) as [r|] eqn:E; simpl.
  - exact (Hnn _ _ _ E).
  - exact empty_record_nonneg.
Qed.

(** The lazily created record does not change the delta. *)
Lemma delta_formula_created (data : Store) (today yesterday user : string)
    (x : spec_float) :
  delta_formula x (lookup_user_day (get_user_day_data data today user).1 yesterday user)
  = delta_formula x (lookup_user_day data yesterday user).
Proof.
  rewrite get_user_day_data_lookup. case_decide as H; [|reflexivity].
  destruct H as [-> _].
  destruct (lookup_user_day data today user); reflexivity.
Qed.

(** On a readable store within the data model the handler returns the
    report of the store and leaves the world alone. *)
Lemma get_today_analysis_run (clk : Clock) (user : string) (rnd : nat)
    (w : World) (data : Store) :
  load_data w = (Ok data, w) -> store_nonneg data ->
  get_today_analysis clk user rnd w = (Ok (expected_report data clk user rnd), w).
Proof.
  intros Hload Hnn.
  unfold get_today_analysis, try_except, analysis_body, bind at 1. rewrite Hload.
  pose proof (get_user_day_data_snd data (today_str clk) user) as Hr.
  pose proof (delta_formula_created data (today_str clk) (yesterday_str clk) user) as Hd.
  pose proof (get_user_day_data_lookup data (today_str clk) user (yesterday_str clk) user) as Hl.
  destruct (get_user_day_data data (today_str clk) user) as [data1 r].
  simpl in Hr, Hd, Hl. subst r.
  set (r := default empty_record (lookup_user_day data (today_str clk) user)) in *.
  destruct (today_record_nonneg data (today_str clk) user Hnn) as (Hp & Hu & _).
  fold r in Hp, Hu.
  assert (0 <= productive r / 60) by (apply Z.div_pos; lia).
  assert (0 <= unproductive r / 60) by (apply Z.div_pos; lia).
  unfold bind at 1. rewrite today_percent_run by lia.
  unfold bind. rewrite delta_vs_yesterday_run.
  - rewrite Hd. reflexivity.
  - intros y Hy. rewrite Hl in Hy.
    assert (record_nonneg y) as (? & ? & _); [|tauto].
    case_decide.
    + injection Hy as <-. apply today_record_nonneg, Hnn.
    + exact (Hnn _ _ _ Hy).
Qed.

(** ** The report reads and never writes *)

Lemma read_only_get_today_analysis (clk : Clock) (user : string) (rnd : nat) :
  read_only (get_today_analysis clk user rnd).
Proof.
  unfold get_today_analysis. apply read_only_try_except.
  - apply read_only_analysis_body.
  - intros e. apply read_only_ret.
Qed.

(** C10: a report request leaves the file (and the output) exactly as
    they were, whatever the file holds and whether or not the user has a
    record for today, and so does any sequence of report requests: the
    record created in memory for a user without data is never saved. *)
Theorem analysis_never_saves (clk : Clock) (user : string) (rnd : nat)
    (reqs : list (Clock * string * nat)) (w : World) :
  (get_today_analysis clk user rnd w).2 = w /\
  file (get_today_analysis clk user rnd w).2 = file w /\
  run_reports reqs w = w.
Proof.
  pose proof (read_only_get_today_analysis clk user rnd w) as H.
  split; [exact H|]. split; [now rewrite H|].
  induction reqs as [|[[c u] n] t IH]; simpl; [reflexivity|].
  now rewrite (read_only_get_today_analysis c u n w).
Qed.

(** A user without a record today on a store that has other data: the
    report is all zeros and the file still has no record for the user. *)
Example analysis_creates_nothing :
  let w' := (get_today_analysis demo_clock "nobody" 0 demo_world).2 in
  w' = demo_world /\
  lookup_user_day (persisted w') "2024-05-02" "nobody" = None /\
  lookup_user_day (get_user_day_data demo_store "2024-05-02" "nobody").1
    "2024-05-02" "nobody" = Some empty_record.
Proof.
  split; [apply read_only_get_today_analysis|].
  rewrite read_only_get_today_analysis. split; vm_compute; reflexivity.
Qed.

(** ** The report of an absent or damaged file *)

Lemma random_choice_in_pool (rnd : nat) :
  random_choice MOTIVATIONAL_QUOTES rnd ∈ MOTIVATIONAL_QUOTES.
Proof.
  unfold random_choice. apply list_elem_of_In, nth_In.
  apply Nat.mod_upper_bound. discriminate.
Qed.

(** A file that cannot be read at all: [load_data] raises, and the
    handler answers with its fallback report, zeros again. *)
Lemma unreadable_store_report (clk : Clock) (user : string) (rnd : nat)
    (w : World) (e : string) :
  file w = FUnreadable e ->
  load_data w = (Raise e, w) /\
  get_today_analysis clk user rnd w = (Ok (fallback_report e), w).
Proof.
  intros Hf. unfold get_today_analysis, try_except, analysis_body, bind, load_data.
  rewrite Hf. split; reflexivity.
Qed.

(** C8, as the code has it.  An absent file, a file that [json.load]
    rejects with [JSONDecodeError], and a file holding the empty store
    are read as the empty store without raising, and the report of any
    user is then 0 productive minutes, 0 unproductive minutes, 0.0
    percent, no delta, a quote of the pool and no site.  A file whose
    reading raises another exception (bytes that are no UTF-8, a missing
    permission) is not read as the empty store: [load_data] raises, and
    the report is the fallback report, zeros again, with the text of the
    exception under [error].  Nothing is written either way. *)
Theorem store_file_tolerance (clk : Clock) (user : string) (rnd : nat) (w : World) :
  (file w = FMissing \/ file w = FNotJson \/ file w = FData ∅ ->
   load_data w = (Ok ∅, w) /\
   get_today_analysis clk user rnd w
   = (Ok {| productive_minutes := 0;
            unproductive_minutes := 0;
            productivity_percent := S754_zero false;
            delta_vs_yesterday_percent := None;
            quote := random_choice MOTIVATIONAL_QUOTES rnd;
            by_site := [];
            error := None |}, w) /\
   random_choice MOTIVATIONAL_QUOTES rnd ∈ MOTIVATIONAL_QUOTES) /\
  (forall e, file w = FUnreadable e ->
     load_data w = (Raise e, w) /\
     get_today_analysis clk user rnd w
     = (Ok {| productive_minutes := 0;
              unproductive_minutes := 0;
              productivity_percent := S754_zero false;
              delta_vs_yesterday_percent := None;
              quote := "Every journey begins with a single step.";
              by_site := [];
              error := Some e |}, w)).
Proof.
  split.
  - intros Hf.
    assert (Hload : load_data w = (Ok ∅, w)).
    { unfold load_data. destruct Hf as [-> | [-> | ->]]; reflexivity. }
    split; [exact Hload|]. split; [|apply random_choice_in_pool].
    rewrite (get_today_analysis_run clk user rnd w ∅ Hload store_nonneg_empty).
    unfold expected_report, lookup_user_day. rewrite !lookup_empty. reflexivity.
  - intros e Hf. exact (unreadable_store_report clk user rnd w e Hf).
Qed.

Lemma store_file_tolerance_witness :
  (load_data fresh_world = (Ok ∅, fresh_world) /\
   get_today_analysis demo_clock "guest" 14 fresh_world
   = (Ok {| productive_minutes := 0;
            unproductive_minutes := 0;
            productivity_percent := S754_zero false;
            delta_vs_yesterday_percent := None;
            quote := "Your focus determines your reality.";
            by_site := [];
            error := None |}, fresh_world) /\
   "Your focus determines your reality." ∈ MOTIVATIONAL_QUOTES) /\
  (load_data garbled_world = (Raise garbled_error, garbled_world) /\
   get_today_analysis demo_clock "guest" 14 garbled_world
   = (Ok {| productive_minutes := 0;
            unproductive_minutes := 0;
            productivity_percent := S754_zero false;
            delta_vs_yesterday_percent := None;
            quote := "Every journey begins with a single step.";
            by_site := [];
            error := Some garbled_error |}, garbled_world)).
Proof.
  split.
  - apply (proj1 (store_file_tolerance demo_clock "guest" 14 fresh_world)).
    left. reflexivity.
  - apply (proj2 (store_file_tolerance demo_clock "guest" 14 garbled_world)).
    reflexivity.
Defined.

(** The claim that a damaged file always loads as the empty store fails.
    With [activity.json] holding the one byte 0xFF the file exists and
    opens, reading it raises [UnicodeDecodeError], which is neither of the
    two exceptions [load_data] catches: [load_data] raises, and an
    [/activity] request on that file is answered with the error and
    records nothing. *)
Lemma garbled_file_load_raises :
  file garbled_world <> FMissing /\
  load_data garbled_world = (Raise garbled_error, garbled_world) /\
  (load_data garbled_world).1 <> Ok ∅ /\
  log_activity UrlLib.urlsplit_netloc demo_clock "https://github.com/rocq" 90
    "guest" SaveOk garbled_world
  = (Ok (ActivityError garbled_error), garbled_world).
Proof. repeat split; discriminate. Qed.

(** ** Minutes, percentage and delta *)

(** C6: on a readable store within the data model the report has
    [productive_minutes = productive // 60],
    [unproductive_minutes = unproductive // 60], and with their sum [tm]
    (which is never negative) the percentage is
    [round(productive_minutes / tm * 100, 1)] when [tm > 0] and [0.0] when
    [tm = 0]; 600 and 300 seconds are 10 and 5 minutes and give 66.7. *)
Theorem report_minutes_and_percent (clk : Clock) (user : string) (rnd : nat)
    (w : World) (data : Store) :
  load_data w = (Ok data, w) ->
  store_nonneg data ->
  let r := default empty_record (lookup_user_day data (today_str clk) user) in
  let pm := productive r / 60 in
  let um := unproductive r / 60 in
  let tm := pm + um in
  (exists rep : Report,
     get_today_analysis clk user rnd w = (Ok rep, w) /\
     error rep = None /\
     productive_minutes rep = pm /\
     unproductive_minutes rep = um /\
     0 <= tm /\
     (0 < tm ->
      productivity_percent rep
      = PyFloat.round1
          (PyFloat.fmul (PyFloat.fdiv (PyFloat.exact_of_Z pm) (PyFloat.exact_of_Z tm))
                        (PyFloat.of_Z 100))) /\
     (tm = 0 -> productivity_percent rep = S754_zero false)) /\
  (600 / 60 = 10 /\ 300 / 60 = 5 /\
   rounded_percent (600 / 60) (600 / 60 + 300 / 60) = PyFloat.tenths 667).
Proof.
  intros Hload Hnn r pm um tm.
  split; [|repeat split; vm_compute; reflexivity].
  exists (expected_report data clk user rnd).
  split; [exact (get_today_analysis_run clk user rnd w data Hload Hnn)|].
  destruct (today_record_nonneg data (today_str clk) user Hnn) as (Hp & Hu & _).
  fold r in Hp, Hu.
  assert (0 <= pm) by (apply Z.div_pos; lia).
  assert (0 <= um) by (apply Z.div_pos; lia).
  repeat split; try reflexivity.
  - unfold tm. lia.
  - intros Htm. simpl. fold r pm um tm. unfold rounded_percent.
    destruct (Z.ltb_spec 0 tm); [reflexivity | lia].
  - intros Htm. simpl. fold r pm um tm. unfold rounded_percent.
    destruct (Z.ltb_spec 0 tm); [lia | reflexivity].
Qed.

Lemma demo_store_nonneg : store_nonneg demo_store.
Proof.
  intros date user r. unfold lookup_user_day, demo_store.
  destruct (decide (date = "2024-05-02")) as [->|H1];
    [|destruct (decide (date = "2024-05-01")) as [->|H2]].
  - rewrite lookup_insert_eq; simpl.
    destruct (decide (user = "guest")) as [->|U1];
      [|destruct (decide (user = "ada")) as [->|U2]].
    + rewrite lookup_insert_eq. intros [= <-]. unfold record_nonneg; simpl.
      repeat split; try lia. repeat constructor; simpl; lia.
    + rewrite lookup_insert_ne by discriminate. rewrite lookup_insert_eq.
      intros [= <-]. unfold record_nonneg; simpl.
      repeat split; try lia. repeat constructor; simpl; lia.
    + rewrite !lookup_insert_ne by congruence. rewrite lookup_empty. discriminate.
  - rewrite lookup_insert_ne by discriminate. rewrite lookup_insert_eq; simpl.
    destruct (decide (user = "guest")) as [->|U1].
    + rewrite lookup_insert_eq. intros [= <-]. unfold record_nonneg; simpl.
      repeat split; try lia. repeat constructor; simpl; lia.
    + rewrite lookup_insert_ne by congruence. rewrite lookup_empty. discriminate.
  - rewrite !lookup_insert_ne by congruence. rewrite lookup_empty. discriminate.
Qed.

Lemma report_minutes_and_percent_witness :
  exists rep : Report,
    get_today_analysis demo_clock "guest" 0 demo_world = (Ok rep, demo_world) /\
    productive_minutes rep = 10 /\
    unproductive_minutes rep = 5 /\
    productivity_percent rep = PyFloat.tenths 667.
Proof.
  destruct (report_minutes_and_percent demo_clock "guest" 0 demo_world demo_store)
    as [(rep & Hrun & _ & Hp & Hu & _ & Hpos & _) _].
  - reflexivity.
  - exact demo_store_nonneg.
  - exists rep. split; [exact Hrun|]. split; [exact Hp|]. split; [exact Hu|].
    rewrite Hpos by (vm_compute; reflexivity). vm_compute. reflexivity.
Defined.

(** C5, as the code has it: on a readable store within the data model,
    the delta is absent when the user has no record for yesterday or when
    yesterday's whole minutes are 0; otherwise it is
    [round(today_percent - yp / yt * 100, 1)], where [yp] and [yt] are
    yesterday's productive and total whole minutes and today's percentage
    is the rounded one of the report.  Yesterday's percentage enters the
    difference as it is, not rounded to one decimal.  With 50.0 for
    yesterday and 66.7 for today the delta is 16.7. *)
Theorem report_delta (clk : Clock) (user : string) (rnd : nat)
    (w : World) (data : Store) :
  load_data w = (Ok data, w) ->
  store_nonneg data ->
  (exists rep : Report,
     get_today_analysis clk user rnd w = (Ok rep, w) /\
     match lookup_user_day data (yesterday_str clk) user with
     | None => delta_vs_yesterday_percent rep = None
     | Some y =>
         let yp := productive y / 60 in
         let yt := yp + unproductive y / 60 in
         if 0 <? yt
         then delta_vs_yesterday_percent rep
              = Some (PyFloat.round1
                        (PyFloat.fsub (productivity_percent rep)
                           (PyFloat.fmul
                              (PyFloat.fdiv (PyFloat.exact_of_Z yp) (PyFloat.exact_of_Z yt))
                              (PyFloat.of_Z 100))))
         else yt = 0 /\ delta_vs_yesterday_percent rep = None
     end) /\
  (raw_percent 30 60 = PyFloat.of_Z 50 /\
   PyFloat.round1 (PyFloat.fsub (PyFloat.tenths 667) (PyFloat.of_Z 50))
   = PyFloat.tenths 167).
Proof.
  intros Hload Hnn.
  split; [|split; vm_compute; reflexivity].
  exists (expected_report data clk user rnd).
  split; [exact (get_today_analysis_run clk user rnd w data Hload Hnn)|].
  simpl. unfold delta_formula.
  destruct (lookup_user_day data (yesterday_str clk) user) as [y|] eqn:Ey; [|reflexivity].
  destruct (Hnn _ _ _ Ey) as (Hp & Hu & _). simpl.
  assert (0 <= productive y / 60) by (apply Z.div_pos; lia).
  assert (0 <= unproductive y / 60) by (apply Z.div_pos; lia).
  destruct (Z.ltb_spec 0 (productive y / 60 + unproductive y / 60));
    [reflexivity | split; [lia | reflexivity]].
Qed.

Lemma report_delta_witness :
  exists rep : Report,
    get_today_analysis demo_clock "guest" 0 demo_world = (Ok rep, demo_world) /\
    productivity_percent rep = PyFloat.tenths 667 /\
    delta_vs_yesterday_percent rep = Some (PyFloat.tenths 167).
Proof.
  destruct (report_delta demo_clock "guest" 0 demo_world demo_store)
    as [(rep & Hrun & Hd) _].
  - reflexivity.
  - exact demo_store_nonneg.
  - exists rep. split; [exact Hrun|].
    assert (Hrep : rep = expected_report demo_store demo_clock "guest" 0).
    { pose proof (get_today_analysis_run demo_clock "guest" 0 demo_world demo_store
                    eq_refl demo_store_nonneg) as H.
      rewrite Hrun in H. now injection H. }
    split; [rewrite Hrep; vm_compute; reflexivity|].
    change (lookup_user_day demo_store (yesterday_str demo_clock) "guest")
      with (Some {| productive := 1800; unproductive := 1800;
                    sites := [("github.com", 1800); ("www.youtube.com", 1800)] |}) in Hd.
    simpl in Hd. rewrite Hd, Hrep. vm_compute. reflexivity.
Defined.

(** The claim with yesterday's percentage rounded first fails.  With one
    productive minute of three today (33.3) and one of sixteen yesterday
    (6.25) the handler returns [round(33.3 - 6.25, 1) = 27.0], while
    rounding 6.25 to 6.2 first gives [round(33.3 - 6.2, 1) = 27.1]. *)
Lemma delta_unrounded_yesterday :
  exists rep : Report,
    get_today_analysis demo_clock "guest" 0 tie_world = (Ok rep, tie_world) /\
    productivity_percent rep = PyFloat.tenths 333 /\
    rounded_percent 1 16 = PyFloat.tenths 62 /\
    delta_vs_yesterday_percent rep = Some (PyFloat.tenths 270) /\
    delta_claimed (productivity_percent rep)
      (lookup_user_day tie_store "2024-05-01" "guest") = Some (PyFloat.tenths 271) /\
    delta_vs_yesterday_percent rep
    <> delta_claimed (productivity_percent rep)
         (lookup_user_day tie_store "2024-05-01" "guest").
Proof.
  eexists. split; [vm_compute; reflexivity|].
  repeat split; try (vm_compute; reflexivity).
  vm_compute. discriminate.
Qed.

(** ** The site ranking *)

Lemma insert_desc_perm (x : string * Z) (l : list (string * Z)) :
  Permutation (insert_desc x l) (x :: l).
Proof.
  induction l as [|y t IH]; simpl; [reflexivity|].
  destruct (x.2 <? y.2); [|reflexivity].
  rewrite IH. apply perm_swap.
Qed.

Lemma sort_desc_perm (l : list (string * Z)) : Permutation (sort_desc l) l.
Proof.
  induction l as [|x t IH]; simpl; [reflexivity|].
  rewrite insert_desc_perm. now constructor.
Qed.

Lemma insert_desc_sorted (x : string * Z) (l : list (string * Z)) :
  StronglySorted desc_minutes l -> StronglySorted desc_minutes (insert_desc x l).
Proof.
  induction 1 as [|y t Hs IH Hall]; simpl.
  - repeat constructor.
  - destruct (Z.ltb_spec x.2 y.2) as [Hlt | Hge].
    + constructor; [exact IH|].
      rewrite (insert_desc_perm x t). constructor; [unfold desc_minutes; lia | exact Hall].
    + constructor; [constructor; assumption|].
      constructor; [exact Hge|].
      eapply Forall_impl; [exact Hall|]. unfold desc_minutes. intros z Hz. simpl in *. lia.
Qed.

Lemma sort_desc_sorted (l : list (string * Z)) :
  StronglySorted desc_minutes (sort_desc l).
Proof.
  induction l as [|x t IH]; simpl; [constructor | now apply insert_desc_sorted].
Qed.

(** In a sorted list, what comes first has at least the minutes of what
    comes later. *)
Lemma sorted_app_desc (l1 l2 : list (string * Z)) :
  StronglySorted desc_minutes (l1 ++ l2) ->
  forall x y, x ∈ l1 -> y ∈ l2 -> y.2 <= x.2.
Proof.
  induction l1 as [|a l1 IH]; simpl; intros Hs x y Hx Hy.
  - inversion Hx.
  - apply StronglySorted_inv in Hs as [Hs Hall].
    apply elem_of_cons in Hx as [-> | Hx].
    + rewrite Forall_forall in Hall. apply (Hall y).
      apply elem_of_app. now right.
    + now apply (IH Hs x y).
Qed.

(** With seconds [>= 0] the loop keeps the hosts with nonzero minutes. *)
Lemma site_minutes_nonzero (s : Sites) :
  Forall (fun x => 0 <= x.2) s -> site_minutes s = nonzero_minutes s.
Proof.
  unfold nonzero_minutes. induction 1 as [|[h sec] t Hsec _ IH]; simpl; [reflexivity|].
  rewrite filter_cons. simpl in *.
  assert (0 <= sec / 60) by (apply Z.div_pos; lia).
  destruct (Z.ltb_spec 0 (sec / 60)); case_decide; try lia; now rewrite IH.
Qed.

Lemma nonzero_minutes_elem (s : Sites) (h : string) (m : Z) :
  (h, m) ∈ nonzero_minutes s <-> exists sec, (h, sec) ∈ s /\ m = sec / 60 /\ m <> 0.
Proof.
  unfold nonzero_minutes. rewrite list_elem_of_filter, list_elem_of_fmap. simpl. split.
  - intros [Hm [[h' sec] [[= -> ->] Hin]]]. eauto.
  - intros [sec [Hin [-> Hm]]]. split; [exact Hm|]. exists (h, sec). split; [reflexivity | exact Hin].
Qed.

(** C7: on a readable store within the data model, [by_site] is the first
    10 entries of a list that holds exactly the hosts of today's [sites]
    whose seconds floor-divided by 60 are not 0, each with those minutes,
    in descending order of minutes; so it has at most 10 entries, and an
    entry left out by the cut has no more minutes than any entry kept.
    The sites a.com 125, b.com 59, c.com 61 give a.com 2, c.com 1. *)
Theorem report_site_ranking (clk : Clock) (user : string) (rnd : nat)
    (w : World) (data : Store) :
  load_data w = (Ok data, w) ->
  store_nonneg data ->
  let s := sites (default empty_record (lookup_user_day data (today_str clk) user)) in
  (exists (rep : Report) (ranking : list (string * Z)),
     get_today_analysis clk user rnd w = (Ok rep, w) /\
     by_site rep = take 10 ranking /\
     Permutation ranking (nonzero_minutes s) /\
     (forall h m, (h, m) ∈ ranking <->
                  exists sec, (h, sec) ∈ s /\ m = sec / 60 /\ m <> 0) /\
     StronglySorted desc_minutes ranking /\
     (length (by_site rep) <= 10)%nat /\
     (forall x y, x ∈ by_site rep -> y ∈ drop 10 ranking -> y.2 <= x.2)) /\
  take 10 (sort_desc (site_minutes [("a.com", 125); ("b.com", 59); ("c.com", 61)]))
  = [("a.com", 2); ("c.com", 1)].
Proof.
  intros Hload Hnn s. split; [|reflexivity].
  destruct (today_record_nonneg data (today_str clk) user Hnn) as (_ & _ & Hs).
  fold s in Hs.
  exists (expected_report data clk user rnd), (sort_desc (site_minutes s)).
  split; [exact (get_today_analysis_run clk user rnd w data Hload Hnn)|].
  split; [reflexivity|].
  pose proof (sort_desc_perm (site_minutes s)) as Hperm.
  rewrite (site_minutes_nonzero s Hs) in *.
  split; [exact Hperm|].
  split; [intros h m; rewrite Hperm; apply nonzero_minutes_elem|].
  split; [apply sort_desc_sorted|].
  split.
  - simpl. fold s. rewrite (site_minutes_nonzero s Hs), length_take. lia.
  - simpl. fold s. rewrite (site_minutes_nonzero s Hs).
    apply sorted_app_desc. rewrite take_drop. apply sort_desc_sorted.
Qed.

Lemma report_site_ranking_witness :
  exists rep : Report,
    get_today_analysis demo_clock "ada" 0 demo_world = (Ok rep, demo_world) /\
    by_site rep = [("a.com", 2); ("c.com", 1)].
Proof.
  destruct (report_site_ranking demo_clock "ada" 0 demo_world demo_store)
    as [(rep & ranking & Hrun & Hby & _) _].
  - reflexivity.
  - exact demo_store_nonneg.
  - exists rep. split; [exact Hrun|].
    pose proof (get_today_analysis_run demo_clock "ada" 0 demo_world demo_store
                  eq_refl demo_store_nonneg) as H.
    rewrite Hrun in H. injection H as ->. vm_compute. reflexivity.
Defined.

(** Entries with the same minutes stay in the order of the dictionary;
    more than ten hosts are cut to ten. *)
Example ranking_ties_and_cut :
  take 10 (sort_desc (site_minutes
    [("a", 60); ("b", 120); ("c", 60); ("d", 120); ("e", 60); ("f", 60);
     ("g", 60); ("h", 60); ("i", 60); ("j", 60); ("k", 180); ("l", 59)]))
  = [("k", 3); ("b", 2); ("d", 2); ("a", 1); ("c", 1); ("e", 1); ("f", 1);
     ("g", 1); ("h", 1); ("i", 1)].
Proof. reflexivity. Qed.

(** * Further properties of the code *)

(** ** Requests on a failing file system *)

Section FailingIO.

Variable urlparse_netloc : string -> option string.



End FailingIO.


(** ** Fetch or create *)

(** X4: [get_user_day_data] is a fetch-or-create.  A record that is there
    is returned and the store stays the very same; a record that is not
    there is created empty; no other record is lost or changed; and
    a second call finds what the first one left, changing nothing. *)
Theorem get_user_day_data_fetch_or_create (data : Store) (date user : string) :
  let data1 := (get_user_day_data data date user).1 in
  (forall r, lookup_user_day data date user = Some r ->
             get_user_day_data data date user = (data, r)) /\
  (lookup_user_day data date user = None ->
   (get_user_day_data data date user).2 = empty_record /\
   lookup_user_day data1 date user = Some empty_record) /\
  (forall date' user' r', lookup_user_day data date' user' = Some r' ->
                          lookup_user_day data1 date' user' = Some r') /\
  get_user_day_data data1 date user = get_user_day_data data date user.
Proof.
  intros data1.
  assert (Hfetch : forall (d0 : Store) r, lookup_user_day d0 date user = Some r ->
                          get_user_day_data d0 date user = (d0, r)).
  { intros d0 r Hr. unfold lookup_user_day in Hr. unfold get_user_day_data.
    destruct (d0 !! date) as [day|] eqn:Hd; [|discriminate]. simpl in Hr |- *.
    rewrite Hd. simpl. now rewrite Hr. }
  split; [apply Hfetch|]. split; [|split].
  - intros Hnone. split.
    + rewrite get_user_day_data_snd, Hnone. reflexivity.
    + unfold data1. rewrite get_user_day_data_lookup, decide_True by tauto.
      now rewrite Hnone.
  - intros date' user' r' Hr'. unfold data1. rewrite get_user_day_data_lookup.
    case_decide as H; [|exact Hr']. destruct H as [-> ->]. now rewrite Hr'.
  - assert (Hl : lookup_user_day data1 date user
                 = Some (default empty_record (lookup_user_day data date user))).
    { unfold data1. now rewrite get_user_day_data_lookup, decide_True by tauto. }
    rewrite (Hfetch data1 _ Hl). unfold data1.
    rewrite <- get_user_day_data_snd. now destruct (get_user_day_data data date user).
Qed.

(** ** Durations are not checked *)

Section Unchecked.

Variable urlparse_netloc : string -> option string.

(** X5: the mutation of [log_activity] takes every integer as a
    duration.  For every [d], negative ones too, the seconds of all sites
    of today's record change by [d], and the sum of the two classified
    totals changes by [d] for a classified host and not at all for a
    neutral one.  So a negative duration on a neutral host takes the sites
    below the classified totals: from the empty store, one productive
    event of 60 seconds and one neutral event of -100 seconds leave 60
    classified seconds and -40 seconds of sites. *)
Theorem record_event_any_duration (data : Store) (today url : string) (d : Z)
    (user : string) :
  let before := default empty_record (lookup_user_day data today user) in
  (exists after : DayUserRecord,
     lookup_user_day (record_event urlparse_netloc data today url d user) today user
     = Some after /\
     sites_total (sites after) = sites_total (sites before) + d /\
     productive after + unproductive after
     = productive before + unproductive before
       + (if is_productive_site urlparse_netloc url is None then 0 else d)) /\
  (exists r : DayUserRecord,
     lookup_user_day
       (record_event UrlLib.urlsplit_netloc
          (record_event UrlLib.urlsplit_netloc ∅ "2024-05-02" "https://github.com/" 60 "guest")
          "2024-05-02" "https://example.org/" (-100) "guest")
       "2024-05-02" "guest" = Some r /\
     productive r + unproductive r = 60 /\ sites_total (sites r) = -40).
Proof.
  intros before. split.
  - exists (apply_event (is_productive_site urlparse_netloc url)
              (get_host urlparse_netloc url) d before).
    split; [rewrite record_event_lookup, decide_True by tauto; reflexivity|].
    destruct (apply_event_fields (is_productive_site urlparse_netloc url)
                (get_host urlparse_netloc url) d before) as (Hp & Hu & _ & _ & Ht).
    split; [exact Ht|]. rewrite Hp, Hu. unfold counted.
    destruct (is_productive_site urlparse_netloc url) as [[|]|];
      repeat case_decide; try congruence; lia.
  - eexists. split; [vm_compute; reflexivity|]. split; reflexivity.
Qed.

End Unchecked.

(** ** The sites dictionary keeps its keys in order, each once *)

Lemma sites_get_none_iff (host : string) (s : Sites) :
  sites_get host s = None <-> host ∉ sites_keys s.
Proof.
  unfold sites_keys. induction s as [|[k v] t IH]; simpl.
  - split; [intros _; apply not_elem_of_nil | reflexivity].
  - rewrite not_elem_of_cons. destruct (String.eqb_spec k host) as [->|Hne].
    + split; [discriminate | tauto].
    + rewrite IH. split; [intros H; split; congruence | tauto].
Qed.

Lemma sites_set_keys (host : string) (v : Z) (s : Sites) :
  sites_keys (sites_set host v s)
  = if decide (host ∈ sites_keys s) then sites_keys s else (sites_keys s ++ [host])%list.
Proof.
  induction s as [|[k x] t IH].
  - destruct (decide (host ∈ sites_keys [])) as [H|H]; [inversion H | reflexivity].
  - cbn [sites_set]. destruct (String.eqb_spec k host) as [->|Hne].
    + destruct (decide (host ∈ sites_keys ((host, x) :: t))) as [H|H]; [reflexivity|].
      exfalso. apply H. apply elem_of_cons. now left.
    + change (sites_keys ((k, x) :: sites_set host v t))
        with (k :: sites_keys (sites_set host v t)).
      rewrite IH. change (sites_keys ((k, x) :: t)) with (k :: sites_keys t).
      destruct (decide (host ∈ sites_keys t)) as [Hin|Hnin];
        destruct (decide (host ∈ k :: sites_keys t)) as [H|H]; try reflexivity.
      * exfalso. apply H. apply elem_of_cons. now right.
      * exfalso. apply elem_of_cons in H as [->|H]; [congruence | tauto].
Qed.

Lemma add_site_keys (host : string) (d : Z) (r : DayUserRecord) :
  sites_keys (sites (add_site host d r))
  = if decide (host ∈ sites_keys (sites r)) then sites_keys (sites r)
    else (sites_keys (sites r) ++ [host])%list.
Proof.
  unfold add_site; simpl. rewrite sites_set_keys.
  destruct (sites_get host (sites r)) eqn:E.
  - reflexivity.
  - apply sites_get_none_iff in E. rewrite sites_set_keys.
    rewrite (decide_False _ _ E).
    rewrite decide_True by (apply elem_of_app; right; now apply list_elem_of_singleton).
    reflexivity.
Qed.

Lemma apply_event_keys (c : option bool) (host : string) (d : Z) (r : DayUserRecord) :
  sites_keys (sites (apply_event c host d r))
  = if decide (host ∈ sites_keys (sites r)) then sites_keys (sites r)
    else (sites_keys (sites r) ++ [host])%list.
Proof.
  unfold apply_event. rewrite add_site_keys. destruct c as [[|]|]; reflexivity.
Qed.

Lemma apply_event_keys_nodup (c : option bool) (host : string) (d : Z)
    (r : DayUserRecord) :
  NoDup (sites_keys (sites r)) -> NoDup (sites_keys (sites (apply_event c host d r))).
Proof.
  intros Hnd. rewrite apply_event_keys. case_decide as Hin; [exact Hnd|].
  apply NoDup_app. split; [exact Hnd|]. split.
  - intros x Hx Hx'. apply list_elem_of_singleton in Hx'. congruence.
  - apply NoDup_singleton.
Qed.

Section Keys.

Variable urlparse_netloc : string -> option string.

Lemma store_keys_nodup_empty : store_keys_nodup ∅.
Proof.
  intros date user r H. unfold lookup_user_day in H.
  rewrite lookup_empty in H. discriminate.
Qed.

Lemma record_event_keys_nodup (data : Store) (today url : string) (d : Z)
    (user : string) :
  store_keys_nodup data ->
  store_keys_nodup (record_event urlparse_netloc data today url d user).
Proof.
  intros Hinv date' user' r. rewrite record_event_lookup. case_decide.
  - intros [= <-]. apply apply_event_keys_nodup.
    destruct (lookup_user_day data today user) as [r0|] eqn:E; simpl.
    + exact (Hinv _ _ _ E).
    + apply NoDup_nil_2.
  - apply Hinv.
Qed.

Lemma log_event_keys_nodup (e : Event) (w : World) :
  store_keys_nodup (persisted w) ->
  store_keys_nodup (persisted (log_event urlparse_netloc e w)).
Proof.
  intros Hinv. unfold log_event.
  destruct (load_data_cases w) as [Hload | [err Hf]].
  - rewrite (log_activity_run _ _ _ _ _ _ _ _ Hload).
    destruct (ev_io e); simpl.
    + now apply record_event_keys_nodup.
    + exact Hinv.
    + exact store_keys_nodup_empty.
  - now rewrite (log_activity_unreadable _ _ _ _ _ _ _ _ Hf).
Qed.

(** X6: the per-site update keeps the dictionary a dictionary.  A host
    already among the keys keeps its place and no key is added; a new
    host becomes the last key.  So in every store reached from the empty
    store by recording events, with any durations and any outcome of the
    saves, each record lists every host once. *)
Theorem sites_keys_ordered_once (evs : list Event) (w0 : World) :
  (forall (c : option bool) (host : string) (d : Z) (r : DayUserRecord),
     sites_keys (sites (apply_event c host d r))
     = if decide (host ∈ sites_keys (sites r)) then sites_keys (sites r)
       else (sites_keys (sites r) ++ [host])%list) /\
  (load_data w0 = (Ok ∅, w0) ->
   store_keys_nodup (persisted (replay urlparse_netloc evs w0))).
Proof.
  split; [exact apply_event_keys|].
  intros Hload.
  assert (H0 : store_keys_nodup (persisted w0)).
  { destruct (load_data_cases w0) as [H | [e Hf]].
    - rewrite Hload in H. injection H as <-. exact store_keys_nodup_empty.
    - unfold load_data in Hload. rewrite Hf in Hload. discriminate. }
  clear Hload. revert w0 H0.
  induction evs as [|e evs IH]; intros w0 H0; simpl; [exact H0|].
  apply IH. now apply log_event_keys_nodup.
Qed.

End Keys.

Lemma sites_keys_ordered_once_witness :
  exists r : DayUserRecord,
    lookup_user_day (persisted (replay UrlLib.urlsplit_netloc demo_events fresh_world))
      "2024-05-02" "guest" = Some r /\
    sites_keys (sites r) = ["github.com"; "www.youtube.com"; "example.org"] /\
    NoDup (sites_keys (sites r)).
Proof.
  eexists. split; [vm_compute; reflexivity|]. split; [reflexivity|].
  destruct (sites_keys_ordered_once UrlLib.urlsplit_netloc demo_events fresh_world)
    as [_ H].
  eapply (H eq_refl "2024-05-02" "guest"). vm_compute. reflexivity.
Defined.

(** ** Hosts are lowercase *)

Lemma lower_ascii_not_upper (c : ascii) : is_upper (Str.lower_ascii c) = false.
Proof. destruct c as [[] [] [] [] [] [] [] []]; reflexivity. Qed.

Lemma lower_ascii_fixed (c : ascii) :
  is_upper c = false -> Str.lower_ascii c = c.
Proof. destruct c as [[] [] [] [] [] [] [] []]; (reflexivity || discriminate). Qed.

Lemma lower_no_upper (s : string) :
  UrlLib.all_chars (fun c => negb (is_upper c)) (Str.lower s) = true.
Proof.
  induction s as [|c s IH]; simpl; [reflexivity|].
  now rewrite lower_ascii_not_upper, IH.
Qed.

Lemma lower_fixed (s : string) :
  UrlLib.all_chars (fun c => negb (is_upper c)) s = true -> Str.lower s = s.
Proof.
  induction s as [|c s IH]; simpl; [reflexivity|].
  intros H. apply andb_true_iff in H as [Hc Hs].
  rewrite lower_ascii_fixed by (now apply negb_true_iff). now rewrite IH.
Qed.

Lemma lower_ascii_keeps_ascii (c : ascii) :
  is_ascii_char c = true -> is_ascii_char (Str.lower_ascii c) = true.
Proof. destruct c as [[] [] [] [] [] [] [] []]; (reflexivity || discriminate). Qed.

Lemma lower_keeps_ascii (s : string) :
  UrlLib.all_chars is_ascii_char s = true ->
  UrlLib.all_chars is_ascii_char (Str.lower s) = true.
Proof.
  induction s as [|c s IH]; simpl; [reflexivity|].
  intros H. apply andb_true_iff in H as [Hc Hs].
  now rewrite lower_ascii_keeps_ascii, IH.
Qed.

(** X7: a host written in ASCII comes out in lowercase.  When the netloc
    the parser finds has ASCII characters only, where lowering the letters
    A to Z is all that [lower()] does, and also when the parser raises,
    the host [get_host] returns is ASCII, has no capital letter, and
    lowering it again changes nothing: a host typed with capitals is
    booked and classified as the same host in small letters. *)
Theorem get_host_lowercase (urlparse_netloc : string -> option string) (url : string) :
  (forall netloc, urlparse_netloc url = Some netloc ->
                  UrlLib.all_chars is_ascii_char netloc = true) ->
  UrlLib.all_chars is_ascii_char (get_host urlparse_netloc url) = true /\
  UrlLib.all_chars (fun c => negb (is_upper c)) (get_host urlparse_netloc url) = true /\
  Str.lower (get_host urlparse_netloc url) = get_host urlparse_netloc url.
Proof.
  intros Hascii.
  assert (H : UrlLib.all_chars (fun c => negb (is_upper c))
                (get_host urlparse_netloc url) = true).
  { unfold get_host. destruct (urlparse_netloc url); [apply lower_no_upper | reflexivity]. }
  split; [|split; [exact H | now apply lower_fixed]].
  unfold get_host. destruct (urlparse_netloc url) as [netloc|] eqn:E; [|reflexivity].
  apply lower_keeps_ascii, Hascii. reflexivity.
Qed.

Lemma get_host_lowercase_witness :
  get_host UrlLib.urlsplit_netloc "HTTPS://GitHub.COM/Rocq" = "github.com" /\
  UrlLib.all_chars (fun c => negb (is_upper c)) "github.com" = true /\
  Str.lower "github.com" = "github.com".
Proof.
  split; [reflexivity|].
  destruct (get_host_lowercase UrlLib.urlsplit_netloc "HTTPS://GitHub.COM/Rocq")
    as (_ & H1 & H2).
  - intros netloc [= <-]. reflexivity.
  - split; [exact H1 | exact H2].
Defined.

(** ** Classification follows substrings *)

Lemma append_assoc (a b c : string) :
  ((a ++ b) ++ c)%string = (a ++ (b ++ c))%string.
Proof.
  induction a as [|x a IH]; [reflexivity|].
  rewrite !append_cons. now rewrite IH.
Qed.

Lemma substring_of_trans (a b c : string) :
  Str.substring_of a b -> Str.substring_of b c -> Str.substring_of a c.
Proof.
  intros [p1 [q1 ->]] [p2 [q2 ->]].
  exists (p2 ++ p1)%string, (q1 ++ q2)%string.
  now rewrite !append_assoc.
Qed.

Lemma matches_mono (sites : list string) (h h' : string) :
  Str.substring_of h h' -> matches sites h -> matches sites h'.
Proof.
  intros Hsub [s [Hin Hs]]. exists s. split; [exact Hin|].
  now apply substring_of_trans with h.
Qed.

Lemma classify_host_cases (host : string) :
  (classify_host host = Some true <-> matches PRODUCTIVE_SITES host) /\
  (classify_host host = Some false <->
     ~ matches PRODUCTIVE_SITES host /\ matches UNPRODUCTIVE_SITES host) /\
  (classify_host host = None <->
     ~ matches PRODUCTIVE_SITES host /\ ~ matches UNPRODUCTIVE_SITES host).
Proof.
  unfold classify_host.
  rewrite <- !any_site_in_false_iff, <- !any_site_in_iff.
  destruct (any_site_in PRODUCTIVE_SITES host), (any_site_in UNPRODUCTIVE_SITES host);
    intuition congruence.
Qed.

(** X8: a host that contains a classified host is classified.  When [h]
    is a substring of [h'] (a subdomain in front, a port behind, any text
    around): if [h] is productive so is [h'], and if [h] is not neutral
    neither is [h'].  Every entry of the productive list is itself
    productive and every entry of the unproductive list is itself
    unproductive: no entry of the second list is caught by the first. *)
Theorem classify_host_substring (h h' : string) :
  Str.substring_of h h' ->
  (classify_host h = Some true -> classify_host h' = Some true) /\
  (classify_host h <> None -> classify_host h' <> None) /\
  Forall (fun s => classify_host s = Some true) PRODUCTIVE_SITES /\
  Forall (fun s => classify_host s = Some false) UNPRODUCTIVE_SITES.
Proof.
  intros Hsub.
  destruct (classify_host_cases h) as (Hp & Hu & Hn).
  destruct (classify_host_cases h') as (Hp' & Hu' & Hn').
  split; [|split; [|split]].
  - intros H. apply Hp'. apply Hp in H. now apply matches_mono with h.
  - intros H Hnone. apply Hn' in Hnone as [Hnp Hnu].
    destruct (classify_host h) as [[|]|] eqn:E; [| |congruence].
    + apply Hnp. apply matches_mono with h; [exact Hsub | now apply Hp].
    + apply Hnu. apply matches_mono with h; [exact Hsub | now apply Hu].
  - repeat constructor.
  - repeat constructor.
Qed.

Lemma classify_host_substring_witness :
  classify_host "gist.github.com:443" = Some true /\
  classify_host "dropbox.com" <> None.
Proof.
  split.
  - apply (classify_host_substring "github.com" "gist.github.com:443").
    + exists "gist.", ":443". reflexivity.
    + reflexivity.
  - apply (classify_host_substring "x.com" "dropbox.com").
    + exists "dropbo", EmptyString. reflexivity.
    + discriminate.
Defined.

(** ** The ranking: stable, whole minutes, each host once *)

Lemma insert_desc_filter (m : Z) (x : string * Z) (l : list (string * Z)) :
  filter (fun y => y.2 = m) (insert_desc x l) = filter (fun y => y.2 = m) (x :: l).
Proof.
  induction l as [|y t IH]; simpl; [reflexivity|].
  destruct (Z.ltb_spec x.2 y.2) as [Hlt|Hge]; [|reflexivity].
  rewrite (filter_cons _ y), IH, !(filter_cons _ x), (filter_cons _ y).
  repeat case_decide; try reflexivity. lia.
Qed.

(** X9: the sort of the ranking is stable.  For every number of minutes
    [m], the entries with [m] minutes stand in the sorted list in the very
    order they had before: hosts that tie are ranked in the order of the
    dictionary, which is the order of their first event. *)
Theorem sort_desc_stable (l : list (string * Z)) (m : Z) :
  filter (fun y => y.2 = m) (sort_desc l) = filter (fun y => y.2 = m) l.
Proof.
  induction l as [|x t IH]; simpl; [reflexivity|].
  rewrite insert_desc_filter, !(filter_cons _ x), IH. reflexivity.
Qed.

Lemma site_minutes_elem (s : Sites) (h : string) (m : Z) :
  (h, m) ∈ site_minutes s <-> exists sec, (h, sec) ∈ s /\ m = sec / 60 /\ 1 <= m.
Proof.
  induction s as [|[k sec] t IH]; simpl.
  - split; [intros H; inversion H | intros [sec [H _]]; inversion H].
  - destruct (Z.ltb_spec 0 (sec / 60)) as [Hpos|Hle].
    + rewrite elem_of_cons, IH. split.
      * intros [[= -> ->] | [sec' [Hin Hm]]].
        -- exists sec. split; [apply elem_of_cons; now left | split; [reflexivity | lia]].
        -- exists sec'. split; [apply elem_of_cons; now right | exact Hm].
      * intros [sec' [Hin [-> Hm]]]. apply elem_of_cons in Hin as [[= -> ->] | Hin].
        -- now left.
        -- right. exists sec'. tauto.
    + rewrite IH. split.
      * intros [sec' [Hin Hm]]. exists sec'. split; [apply elem_of_cons; now right | exact Hm].
      * intros [sec' [Hin [-> Hm]]]. apply elem_of_cons in Hin as [[= -> ->] | Hin].
        -- lia.
        -- exists sec'. tauto.
Qed.

Lemma site_minutes_keys_sublist (s : Sites) :
  sites_keys (site_minutes s) `sublist_of` sites_keys s.
Proof.
  unfold sites_keys. induction s as [|[k sec] t IH]; simpl; [constructor|].
  destruct (0 <? sec / 60); simpl; now constructor.
Qed.

(** X10: what [by_site] can hold, for any [sites] dictionary [s], also one
    with negative seconds.  Each entry is a host of [s] with its seconds
    floor-divided by 60, and it has at least one minute, so at least 60
    seconds; a host under a minute never shows.  There are at most 10
    entries and never more than [s] has hosts, and when [s] has every host
    once, so has [by_site]. *)
Theorem by_site_entries (s : Sites) :
  let out := take 10 (sort_desc (site_minutes s)) in
  (forall h m, (h, m) ∈ out ->
     1 <= m /\ exists sec, (h, sec) ∈ s /\ m = sec / 60 /\ 60 <= sec) /\
  (length out <= Nat.min 10 (length s))%nat /\
  (NoDup (sites_keys s) -> NoDup (sites_keys out)).
Proof.
  intros out. split; [|split].
  - intros h m Hin. apply subseteq_take in Hin.
    rewrite (sort_desc_perm (site_minutes s)) in Hin.
    apply site_minutes_elem in Hin as [sec [Hs [-> Hm]]].
    split; [exact Hm|]. exists sec. split; [exact Hs|]. split; [reflexivity|].
    destruct (Z.lt_ge_cases sec 60) as [Hlt|Hge]; [|exact Hge].
    assert (sec / 60 <= 0); [|lia].
    destruct (Z.lt_ge_cases sec 0).
    + assert (sec / 60 < 0) by (apply Z.div_lt_upper_bound; lia). lia.
    + rewrite Z.div_small by lia. lia.
  - unfold out. rewrite length_take.
    rewrite (Permutation_length (sort_desc_perm (site_minutes s))).
    pose proof (sublist_length _ _ (site_minutes_keys_sublist s)) as H.
    unfold sites_keys in H. rewrite !length_map in H. lia.
  - intros Hnd. unfold out, sites_keys. rewrite fmap_take.
    eapply sublist_NoDup; [|apply sublist_take].
    rewrite (sort_desc_perm (site_minutes s)).
    exact (sublist_NoDup _ _ Hnd (site_minutes_keys_sublist s)).
Qed.

(** ** The report never raises *)

(** What the body of the handler returns when it returns, on any store. *)
Lemma analysis_body_ok (clk : Clock) (user : string) (rnd : nat) (w w' : World)
    (rep : Report) :
  analysis_body clk user rnd w = (Ok rep, w') ->
  exists data : Store,
    load_data w = (Ok data, w) /\
    let r := default empty_record (lookup_user_day data (today_str clk) user) in
    error rep = None /\
    productive_minutes rep = productive r / 60 /\
    unproductive_minutes rep = unproductive r / 60 /\
    quote rep = random_choice MOTIVATIONAL_QUOTES rnd /\
    by_site rep = take 10 (sort_desc (site_minutes (sites r))).
Proof.
  unfold analysis_body, bind at 1.
  pose proof (read_only_load_data w) as Hw.
  destruct (load_data w) as [[data|e] w1] eqn:Hload; simpl in Hw; subst w1;
    [|discriminate].
  pose proof (get_user_day_data_snd data (today_str clk) user) as Hr.
  destruct (get_user_day_data data (today_str clk) user) as [data1 r].
  simpl in Hr. subst r.
  unfold bind.
  destruct (today_percent _ _ w) as [[p|e] w1]; [|discriminate].
  destruct (delta_vs_yesterday data1 _ _ p w1) as [[dl|e] w2]; [|discriminate].
  unfold ret. intros [= <- _]. exists data. repeat split.
Qed.

Lemma fallback_quote_not_in_pool :
  "Every journey begins with a single step." ∉ MOTIVATIONAL_QUOTES.
Proof.
  unfold MOTIVATIONAL_QUOTES. intros H.
  repeat (apply elem_of_cons in H as [H|H]; [discriminate|]).
  inversion H.
Qed.

(** X11: [get_today_analysis] always answers with a report and leaves the
    world as it was, on every file and every store.  Either the report is
    a regular one: no [error], minutes that are the seconds of today's
    record floor-divided by 60, a quote of the pool, and the first 10
    entries of the sorted site list; or it is the fallback report: zeros,
    no delta, no sites, the text of the exception under [error], and a
    quote that is not in the pool.  So [error] is absent exactly when the
    quote is one of the pool. *)
Theorem get_today_analysis_answers (clk : Clock) (user : string) (rnd : nat)
    (w : World) :
  exists rep : Report,
    get_today_analysis clk user rnd w = (Ok rep, w) /\
    ((exists data : Store,
        load_data w = (Ok data, w) /\
        let r := default empty_record (lookup_user_day data (today_str clk) user) in
        error rep = None /\
        productive_minutes rep = productive r / 60 /\
        unproductive_minutes rep = unproductive r / 60 /\
        quote rep = random_choice MOTIVATIONAL_QUOTES rnd /\
        by_site rep = take 10 (sort_desc (site_minutes (sites r)))) \/
     (exists e, rep = fallback_report e)) /\
    (error rep = None <-> quote rep ∈ MOTIVATIONAL_QUOTES).
Proof.
  pose proof (read_only_analysis_body clk user rnd w) as Hw.
  unfold get_today_analysis, try_except.
  destruct (analysis_body clk user rnd w) as [[rep|e] w1] eqn:Hbody;
    simpl in Hw; subst w1.
  - exists rep. split; [reflexivity|].
    destruct (analysis_body_ok _ _ _ _ _ _ Hbody) as [data Hd].
    split; [left; exists data; exact Hd|].
    destruct Hd as (_ & He & _ & _ & Hq & _).
    split; [intros _; rewrite Hq; apply random_choice_in_pool | intros _; exact He].
  - exists (fallback_report e). split; [reflexivity|].
    split; [right; now exists e|].
    simpl. split; [discriminate | intros H; destruct (fallback_quote_not_in_pool H)].
Qed.

(** X12: the report of a store outside the data model can fall back.
    When today's total of whole minutes is positive and the quotient
    [productive_minutes / total_minutes] is too large for a double, the
    division raises and the handler answers with the fallback report that
    carries the text of the exception; the world is unchanged.  Such a
    store is reached by two requests, the second with a negative
    duration. *)
Theorem get_today_analysis_overflow (clk : Clock) (user : string) (rnd : nat)
    (w : World) (data : Store) (e : string) :
  load_data w = (Ok data, w) ->
  let r := default empty_record (lookup_user_day data (today_str clk) user) in
  let pm := productive r / 60 in
  let tm := pm + unproductive r / 60 in
  0 < tm ->
  PyFloat.int_truediv pm tm = inl e ->
  get_today_analysis clk user rnd w = (Ok (fallback_report e), w).
Proof.
  intros Hload r pm tm Htm Hdiv.
  unfold get_today_analysis, try_except, analysis_body, bind at 1. rewrite Hload.
  pose proof (get_user_day_data_snd data (today_str clk) user) as Hr.
  destruct (get_user_day_data data (today_str clk) user) as [data1 r1].
  simpl in Hr. subst r1. fold r. fold pm. fold tm.
  unfold bind at 1, today_percent.
  destruct (Z.ltb_spec 0 tm); [|lia].
  unfold bind at 1, percent_of, bind at 1, lift. rewrite Hdiv. reflexivity.
Qed.

Lemma get_today_analysis_overflow_witness :
  let w := replay UrlLib.urlsplit_netloc
             [ {| ev_clock := demo_clock; ev_url := "https://github.com/";
                  ev_duration := 60 * 10 ^ 400; ev_user := "guest"; ev_io := SaveOk |};
               {| ev_clock := demo_clock; ev_url := "https://www.youtube.com/";
                  ev_duration := 60 - 60 * 10 ^ 400; ev_user := "guest"; ev_io := SaveOk |} ]
             fresh_world in
  get_today_analysis demo_clock "guest" 0 w
  = (Ok (fallback_report "integer division result too large for a float"), w).
Proof.
  intros w.
  eapply (get_today_analysis_overflow demo_clock "guest" 0 w).
  - vm_compute. reflexivity.
  - vm_compute. reflexivity.
  - vm_compute. reflexivity.
Defined.

(** ** A sequence of requests adds up *)

Section Totals.

Variable urlparse_netloc : string -> option string.

Lemma load_data_persisted (w : World) (data : Store) :
  load_data w = (Ok data, w) -> persisted w = data.
Proof.
  unfold load_data, persisted. destruct (file w); intros [= <-] || discriminate; reflexivity.
Qed.

Lemma replay_lookup (evs : list Event) (w : World) (data : Store) (date user : string) :
  load_data w = (Ok data, w) ->
  Forall (fun e => ev_io e = SaveOk) evs ->
  lookup_user_day (persisted (replay urlparse_netloc evs w)) date user
  = foldl (step urlparse_netloc) (lookup_user_day data date user) (bucket date user evs).
Proof.
  intros Hload Hall. revert w data Hload.
  induction Hall as [|e evs Hio _ IH]; intros w data Hload; simpl.
  - now rewrite (load_data_persisted w data Hload).
  - unfold log_event. rewrite (log_activity_run _ _ _ _ _ _ _ _ Hload), Hio. simpl.
    erewrite IH by reflexivity.
    rewrite record_event_lookup. unfold bucket.
    destruct (decide (in_bucket date user e)) as [Hin|Hnin].
    + rewrite filter_cons_True by exact Hin. destruct Hin as [<- <-].
      rewrite decide_True by tauto. reflexivity.
    + rewrite filter_cons_False by exact Hnin.
      rewrite decide_False; [reflexivity|].
      intros [-> ->]. apply Hnin. split; reflexivity.
Qed.

Lemma foldl_step_totals (b : list Event) (o : option DayUserRecord) :
  let r0 := default empty_record o in
  let r := default empty_record (foldl (step urlparse_netloc) o b) in
  (b <> [] -> is_Some (foldl (step urlparse_netloc) o b)) /\
  productive r
  = productive r0 + total_duration (filter (fun e => event_class urlparse_netloc e = Some true) b) /\
  unproductive r
  = unproductive r0 + total_duration (filter (fun e => event_class urlparse_netloc e = Some false) b) /\
  sites_total (sites r) = sites_total (sites r0) + total_duration b /\
  forall h, default 0 (sites_get h (sites r))
            = default 0 (sites_get h (sites r0))
              + total_duration (filter (fun e => event_host urlparse_netloc e = h) b).
Proof.
  revert o. induction b as [|e b IH]; intros o.
  - simpl. repeat split; try lia. congruence.
  - destruct (IH (step urlparse_netloc o e)) as (Hs & Hp & Hu & Ht & Hh).
    destruct (apply_event_fields (event_class urlparse_netloc e) (event_host urlparse_netloc e) (ev_duration e)
                (default empty_record o)) as (Ep & Eu & Es & Eo & Et).
    set (r1 := apply_event (event_class urlparse_netloc e) (event_host urlparse_netloc e) (ev_duration e)
                 (default empty_record o)) in *.
    change (default empty_record (step urlparse_netloc o e)) with r1 in Hp, Hu, Ht, Hh.
    cbn [foldl total_duration].
    split; [|split; [|split; [|split]]].
    + intros _. destruct b as [|e' b']; [simpl; eauto | apply Hs; discriminate].
    + rewrite Hp, Ep, filter_cons. unfold counted.
      repeat case_decide; simpl; try congruence; lia.
    + rewrite Hu, Eu, filter_cons. unfold counted.
      repeat case_decide; simpl; try congruence; lia.
    + rewrite Ht, Et. lia.
    + intros h. rewrite Hh, filter_cons.
      destruct (decide (event_host urlparse_netloc e = h)) as [<-|Hne].
      * rewrite Es. simpl. lia.
      * rewrite Eo by congruence. lia.
Qed.

(** The content of a bucket after a run from the empty store. *)
Lemma replay_bucket (evs : list Event) (w0 : World) (date user : string) :
  load_data w0 = (Ok ∅, w0) ->
  Forall (fun e => ev_io e = SaveOk) evs ->
  let b := bucket date user evs in
  let o := lookup_user_day (persisted (replay urlparse_netloc evs w0)) date user in
  (o = None <-> b = []) /\
  forall r, o = Some r ->
    productive r = total_duration (filter (fun e => event_class urlparse_netloc e = Some true) b) /\
    unproductive r = total_duration (filter (fun e => event_class urlparse_netloc e = Some false) b) /\
    sites_total (sites r) = total_duration b /\
    forall h, default 0 (sites_get h (sites r))
              = total_duration (filter (fun e => event_host urlparse_netloc e = h) b).
Proof.
  intros Hload Hall b o.
  assert (Ho : o = foldl (step urlparse_netloc) None b).
  { unfold o. rewrite (replay_lookup evs w0 ∅ date user Hload Hall).
    unfold lookup_user_day. now rewrite lookup_empty. }
  destruct (foldl_step_totals b None) as (Hs & Hp & Hu & Ht & Hh).
  rewrite <- Ho in Hs, Hp, Hu, Ht, Hh. simpl in Hp, Hu, Ht, Hh.
  split.
  - split.
    + intros Hnone. destruct b as [|e b']; [reflexivity|].
      destruct Hs as [r Hr]; [discriminate | congruence].
    + intros Hb. rewrite Ho, Hb. reflexivity.
  - intros r Hr. rewrite Hr in Hp, Hu, Ht, Hh. simpl in Hp, Hu, Ht, Hh.
    split; [lia|]. split; [lia|]. split; [lia|]. intros h. rewrite Hh. lia.
Qed.

(** X13: the store after a run is the sum of its requests.  Starting from
    the empty store with every save succeeding, and for every integer
    durations, a bucket [(date, user)] has a record exactly when some
    request fell into it, and then [productive] is the sum of the
    durations of the bucket's requests on productive hosts,
    [unproductive] the sum on unproductive hosts, the seconds of all sites
    the sum over the whole bucket, and [sites[h]] the sum over the
    requests on host [h] (0 when [h] is no key). *)
Theorem replay_adds_up (evs : list Event) (w0 : World) (date user : string) :
  load_data w0 = (Ok ∅, w0) ->
  Forall (fun e => ev_io e = SaveOk) evs ->
  let b := bucket date user evs in
  let o := lookup_user_day (persisted (replay urlparse_netloc evs w0)) date user in
  (o = None <-> b = []) /\
  forall r, o = Some r ->
    productive r
    = total_duration
        (filter (fun e => is_productive_site urlparse_netloc (ev_url e) = Some true) b) /\
    unproductive r
    = total_duration
        (filter (fun e => is_productive_site urlparse_netloc (ev_url e) = Some false) b) /\
    sites_total (sites r) = total_duration b /\
    forall h, default 0 (sites_get h (sites r))
              = total_duration
                  (filter (fun e => get_host urlparse_netloc (ev_url e) = h) b).
Proof. exact (replay_bucket evs w0 date user). Qed.

Lemma total_duration_perm (l l' : list Event) :
  Permutation l l' -> total_duration l = total_duration l'.
Proof. induction 1; simpl; lia. Qed.

(** X14: the order of the requests does not matter for the totals.  Two
    runs from the empty store over the same requests in any two orders,
    every save succeeding, leave in every bucket either no record both
    times or records with the same [productive], the same [unproductive]
    and the same seconds for every host; only the order of the hosts in
    [sites] can differ. *)
Theorem replay_order_irrelevant (evs evs' : list Event) (w0 : World)
    (date user : string) :
  Permutation evs evs' ->
  load_data w0 = (Ok ∅, w0) ->
  Forall (fun e => ev_io e = SaveOk) evs ->
  match lookup_user_day (persisted (replay urlparse_netloc evs w0)) date user,
        lookup_user_day (persisted (replay urlparse_netloc evs' w0)) date user with
  | Some r, Some r' => same_totals r r'
  | None, None => True
  | _, _ => False
  end.
Proof.
  intros Hperm Hload Hall.
  assert (Hall' : Forall (fun e => ev_io e = SaveOk) evs') by (now rewrite <- Hperm).
  destruct (replay_bucket evs w0 date user Hload Hall) as [Hn Hr].
  destruct (replay_bucket evs' w0 date user Hload Hall') as [Hn' Hr'].
  assert (Hb : Permutation (bucket date user evs) (bucket date user evs'))
    by (unfold bucket; now rewrite Hperm).
  destruct (lookup_user_day (persisted (replay urlparse_netloc evs w0)) date user)
    as [r|] eqn:E;
  destruct (lookup_user_day (persisted (replay urlparse_netloc evs' w0)) date user)
    as [r'|] eqn:E'.
  - destruct (Hr r eq_refl) as (Hp & Hu & Ht & Hh).
    destruct (Hr' r' eq_refl) as (Hp' & Hu' & Ht' & Hh').
    unfold same_totals. rewrite Hp, Hp', Hu, Hu', Ht, Ht'.
    repeat split.
    + apply total_duration_perm. now rewrite Hb.
    + apply total_duration_perm. now rewrite Hb.
    + now apply total_duration_perm.
    + intros h. rewrite Hh, Hh'. apply total_duration_perm. now rewrite Hb.
  - assert (Hnil : bucket date user evs' = []) by (now apply Hn').
    apply Permutation_length in Hb. rewrite Hnil in Hb.
    destruct (bucket date user evs) as [|e b] eqn:Eb; [|discriminate].
    pose proof (proj2 Hn eq_refl). discriminate.
  - assert (Hnil : bucket date user evs = []) by (now apply Hn).
    apply Permutation_length in Hb. rewrite Hnil in Hb.
    destruct (bucket date user evs') as [|e b] eqn:Eb; [|discriminate].
    pose proof (proj2 Hn' eq_refl). discriminate.
  - exact I.
Qed.

End Totals.

Lemma replay_adds_up_witness :
  exists r : DayUserRecord,
    lookup_user_day (persisted (replay UrlLib.urlsplit_netloc (take 3 demo_events) fresh_world))
      "2024-05-02" "guest" = Some r /\
    productive r = 600 /\ unproductive r = 300 /\ sites_total (sites r) = 945 /\
    default 0 (sites_get "example.org" (sites r)) = 45.
Proof.
  eexists. split; [vm_compute; reflexivity|].
  destruct (replay_adds_up UrlLib.urlsplit_netloc (take 3 demo_events) fresh_world
              "2024-05-02" "guest") as [_ H].
  - reflexivity.
  - repeat constructor.
  - destruct (H _ ltac:(vm_compute; reflexivity)) as (Hp & Hu & Ht & Hh).
    split; [rewrite Hp; vm_compute; reflexivity|].
    split; [rewrite Hu; vm_compute; reflexivity|].
    split; [rewrite Ht; vm_compute; reflexivity|].
    rewrite Hh. vm_compute. reflexivity.
Defined.

Lemma replay_order_irrelevant_witness :
  match lookup_user_day
          (persisted (replay UrlLib.urlsplit_netloc (take 3 demo_events) fresh_world))
          "2024-05-02" "guest",
        lookup_user_day
          (persisted (replay UrlLib.urlsplit_netloc (reverse (take 3 demo_events)) fresh_world))
          "2024-05-02" "guest" with
  | Some r, Some r' =>
      same_totals r r' /\
      sites_keys (sites r) = ["github.com"; "www.youtube.com"; "example.org"] /\
      sites_keys (sites r') = ["example.org"; "www.youtube.com"; "github.com"]
  | _, _ => False
  end.
Proof.
  pose proof (replay_order_irrelevant UrlLib.urlsplit_netloc (take 3 demo_events)
                (reverse (take 3 demo_events)) fresh_world "2024-05-02" "guest"
                (Permutation_sym (reverse_Permutation _)) eq_refl
                ltac:(repeat constructor)) as H.
  destruct (lookup_user_day
          (persisted (replay UrlLib.urlsplit_netloc (take 3 demo_events) fresh_world))
          "2024-05-02" "guest") as [r|] eqn:E;
  destruct (lookup_user_day
          (persisted (replay UrlLib.urlsplit_netloc (reverse (take 3 demo_events)) fresh_world))
          "2024-05-02" "guest") as [r'|] eqn:E';
    vm_compute in E; vm_compute in E'; try discriminate.
  split; [exact H|].
  injection E as <-. injection E' as <-. split; reflexivity.
Defined.

(** ** The percentage is a decimal between 0.0 and 100.0 *)

Module FloatBounds.
Import PyFloat.

Lemma fexp_eq (x : Z) : fexp prec emax x = Z.max (x - 53) (-1074).
Proof. unfold fexp, emin, prec, emax. lia. Qed.

Lemma shr_1_even (k : Z) :
  0 <= k ->
  shr_1 {| shr_m := 2 * k; shr_r := false; shr_s := false |}
  = {| shr_m := k; shr_r := false; shr_s := false |}.
Proof. destruct k; try lia; reflexivity. Qed.

Lemma iter_shr_1_exact (p : positive) (k : Z) :
  0 <= k ->
  SpecFloat.iter_pos shr_1 p {| shr_m := k * 2 ^ Zpos p; shr_r := false; shr_s := false |}
  = {| shr_m := k; shr_r := false; shr_s := false |}.
Proof.
  revert k. induction p as [p IH | p IH |]; intros k Hk.
  - assert (0 < 2 ^ Zpos p) by (apply Z.pow_pos_nonneg; lia).
    replace (k * 2 ^ Zpos p~1) with (2 * ((k * 2 ^ Zpos p) * 2 ^ Zpos p)).
    + cbn [SpecFloat.iter_pos].
      rewrite shr_1_even by nia. rewrite IH by nia. now rewrite IH.
    + replace (Zpos p~1) with (1 + Zpos p + Zpos p) by lia.
      rewrite !Z.pow_add_r by lia. change (2 ^ 1) with 2. lia.
  - assert (0 < 2 ^ Zpos p) by (apply Z.pow_pos_nonneg; lia).
    replace (k * 2 ^ Zpos p~0) with ((k * 2 ^ Zpos p) * 2 ^ Zpos p).
    + cbn [SpecFloat.iter_pos]. rewrite IH by nia. now rewrite IH.
    + replace (Zpos p~0) with (Zpos p + Zpos p) by lia.
      rewrite Z.pow_add_r by lia. lia.
  - replace (k * 2 ^ 1) with (2 * k) by lia. cbn [SpecFloat.iter_pos].
    now apply shr_1_even.
Qed.

(** An exact multiple of the step is shifted without a rest. *)
Lemma shr_fexp_exact (m e b : Z) :
  let e1 := Z.max e (fexp prec emax (Zdigits2 m + e)) in
  0 <= b -> m = b * 2 ^ (e1 - e) ->
  (shr_fexp prec emax m e loc_Exact).1
  = {| shr_m := b; shr_r := false; shr_s := false |}.
Proof.
  intros e1 Hb Hm. unfold shr_fexp, shr. fold e1.
  assert (He1 : fexp prec emax (Zdigits2 m + e) - e <= e1 - e) by lia.
  destruct (fexp prec emax (Zdigits2 m + e) - e) eqn:E; simpl.
  - replace (e1 - e) with 0 in Hm by lia. rewrite Hm. f_equal. lia.
  - replace (e1 - e) with (Zpos p) in Hm by lia. rewrite Hm.
    now apply iter_shr_1_exact.
  - replace (e1 - e) with 0 in Hm by lia. rewrite Hm. f_equal. lia.
Qed.

(** Rounding does not pass a bound that the format can hold.  The number
    [m * 2^e] is at most [B], all in units of [2^-1200]; when it is [B]
    it is exact. *)
Lemma binary_round_aux_le (s : bool) (m e : Z) (l : location) (B : Z) :
  let e1 := Z.max e (fexp prec emax (Zdigits2 m + e)) in
  0 <= m -> -1200 <= e -> e1 <= 0 -> 0 <= B <= 1024 ->
  m * 2 ^ (e + 1200) <= B * 2 ^ 1200 ->
  (m * 2 ^ (e + 1200) = B * 2 ^ 1200 -> l = loc_Exact) ->
  match binary_round_aux prec emax s m e l with
  | S754_finite s' m2 e2 =>
      s' = s /\ e <= e2 <= 0 /\ Zpos m2 * 2 ^ (e2 + 1200) <= B * 2 ^ 1200
  | S754_zero s' => s' = s
  | _ => False
  end.
Proof.
  intros e1 Hm He He1 HB Hle Hex. unfold binary_round_aux.
  pose proof (FloatFacts.shr_fexp_exp m e l) as Hx1.
  pose proof (FloatFacts.shr_fexp_m m e l Hm) as Hm1.
  fold e1 in Hx1, Hm1.
  set (n := e1 - e) in *.
  assert (Hn : 0 <= n) by (unfold n, e1; lia).
  set (P := 2 ^ (e + 1200)) in *.
  assert (HP : 0 < P) by (apply Z.pow_pos_nonneg; lia).
  assert (H2n : 0 < 2 ^ n) by (apply Z.pow_pos_nonneg; lia).
  set (b := B * 2 ^ (- e1)).
  assert (H2e : 0 < 2 ^ (- e1)) by (apply Z.pow_pos_nonneg; lia).
  assert (HT : B * 2 ^ 1200 = b * 2 ^ n * P).
  { unfold b, P, n. rewrite <- !Z.mul_assoc, <- !Z.pow_add_r by lia.
    f_equal. f_equal. lia. }
  rewrite HT in Hle, Hex.
  assert (Hmb : m <= b * 2 ^ n) by nia.
  assert (Hb0 : 0 <= b) by (unfold b; nia).
  (* the first shift and the rounding *)
  assert (Hround : forall mrs1, (shr_fexp prec emax m e l).1 = mrs1 ->
            let m1 := round_nearest_even (shr_m mrs1) (loc_of_shr_record mrs1) in
            0 <= m1 <= b).
  { intros mrs1 Hmrs m1.
    pose proof (FloatFacts.round_nearest_even_bounds (shr_m mrs1) (loc_of_shr_record mrs1)) as Hb1.
    fold m1 in Hb1. pose proof Hm1 as Hm1'. rewrite Hmrs in Hm1'.
    assert (0 <= m / 2 ^ n) by (apply Z.div_pos; lia).
    assert (m / 2 ^ n <= b).
    { apply Z.div_le_upper_bound; lia. }
    destruct (Z.eq_dec (m / 2 ^ n) b) as [Heq|Hne]; [|lia].
    assert (Hmeq : m = b * 2 ^ n).
    { pose proof (Z.mul_div_le m (2 ^ n) H2n). nia. }
    assert (Hl : l = loc_Exact) by (apply Hex; rewrite Hmeq; reflexivity).
    subst l. pose proof (shr_fexp_exact m e b Hb0 Hmeq) as Hrec.
    rewrite Hmrs in Hrec. unfold m1. rewrite Hrec. simpl. lia. }
  destruct (shr_fexp prec emax m e l) as [mrs1 ex1]. simpl in Hx1, Hm1.
  specialize (Hround mrs1 eq_refl). simpl in Hround.
  set (m1 := round_nearest_even (shr_m mrs1) (loc_of_shr_record mrs1)) in *.
  destruct Hround as [Hm1lo Hm1hi]. subst ex1.
  pose proof (FloatFacts.shr_fexp_exp m1 e1 loc_Exact) as Hx2.
  pose proof (FloatFacts.shr_fexp_m m1 e1 loc_Exact Hm1lo) as Hm2.
  destruct (shr_fexp prec emax m1 e1 loc_Exact) as [mrs2 e2]. simpl in Hx2, Hm2.
  (* the exponent stays small *)
  assert (Hd1 : Zdigits2 m1 <= 11 - e1).
  { apply FloatFacts.Zdigits2_le; [lia|]. split; [lia|].
    apply Z.le_lt_trans with b; [exact Hm1hi|].
    unfold b. replace (11 - e1) with (11 + - e1) by lia.
    rewrite Z.pow_add_r by lia. change (2 ^ 11) with 2048. nia. }
  assert (He2 : e1 <= e2 <= 0) by (rewrite Hx2, fexp_eq; lia).
  set (n2 := e2 - e1) in *.
  assert (H2n2 : 0 < 2 ^ n2) by (apply Z.pow_pos_nonneg; unfold n2; lia).
  replace (Z.max e1 (fexp prec emax (Zdigits2 m1 + e1)) - e1) with n2 in Hm2
    by (unfold n2; lia).
  assert (Hm2lo : 0 <= shr_m mrs2) by (rewrite Hm2; apply Z.div_pos; lia).
  destruct (shr_m mrs2) as [|m2|m2] eqn:Em2; [reflexivity| |lia].
  destruct (Z.leb_spec e2 (emax - prec)) as [_|Hbig]; [|unfold emax, prec in Hbig; lia].
  split; [reflexivity|]. split; [unfold e1 in *; lia|].
  rewrite HT.
  assert (Hm2le : Zpos m2 * 2 ^ n2 <= m1).
  { rewrite Hm2. rewrite Z.mul_comm. apply Z.mul_div_le. lia. }
  replace (2 ^ (e2 + 1200)) with (2 ^ n2 * (2 ^ n * P)).
  - nia.
  - unfold P, n, n2. rewrite <- !Z.pow_add_r by lia. f_equal. lia.
Qed.

Lemma new_location_zero (nb : Z) : new_location nb 0 = loc_Exact.
Proof. unfold new_location. destruct (Z.even nb); reflexivity. Qed.

(** A share [p / t] is a double in [[0, 1]]. *)
Lemma fdiv_share_le_one (p t : Z) :
  0 <= p <= t -> 0 < t ->
  match fdiv (exact_of_Z p) (exact_of_Z t) with
  | S754_zero s => s = false
  | S754_finite s m e =>
      s = false /\ -1074 <= e <= 0 /\ Zpos m * 2 ^ (e + 1200) <= 1 * 2 ^ 1200
  | _ => False
  end.
Proof.
  intros [Hp Hpt] Ht.
  destruct t as [|mt|mt]; try lia.
  destruct p as [|mp|mp]; try lia; [reflexivity|].
  unfold fdiv, exact_of_Z, SFdiv, SFdiv_core_binary.
  set (ez := Z.min (fexp prec emax (Zdigits2 (Zpos mp) + 0 - (Zdigits2 (Zpos mt) + 0))) (0 - 0)).
  assert (Hez : -1074 <= ez <= 0) by (unfold ez; rewrite fexp_eq; lia).
  set (m' := match 0 - 0 - ez with
             | 0 => Zpos mp
             | Zpos _ => Z.shiftl (Zpos mp) (0 - 0 - ez)
             | Zneg _ => 0
             end).
  assert (Hm' : m' = Zpos mp * 2 ^ (- ez)).
  { unfold m'. destruct (0 - 0 - ez) eqn:E; try lia.
    - replace (- ez) with 0 by lia. lia.
    - rewrite Z.shiftl_mul_pow2 by lia. f_equal. f_equal. lia. }
  pose proof (Z_div_mod m' (Zpos mt) ltac:(lia)) as Hdm.
  destruct (Z.div_eucl m' (Zpos mt)) as [q r]. destruct Hdm as [Hq Hr].
  simpl xorb.
  assert (H2 : 0 < 2 ^ (- ez)) by (apply Z.pow_pos_nonneg; lia).
  assert (Hq0 : 0 <= q) by nia.
  assert (Hq1 : q <= 2 ^ (- ez)) by nia.
  assert (Hpow : 2 ^ 1200 = 2 ^ (- ez) * 2 ^ (ez + 1200)).
  { rewrite <- Z.pow_add_r by lia. f_equal. lia. }
  assert (HP : 0 < 2 ^ (ez + 1200)) by (apply Z.pow_pos_nonneg; lia).
  assert (Hdig : Zdigits2 q <= - ez + 1).
  { apply FloatFacts.Zdigits2_le; [lia|]. rewrite Z.pow_add_r by lia. lia. }
  pose proof (binary_round_aux_le false q ez (new_location (Zpos mt) r) 1) as H.
  cbv zeta in H. rewrite fexp_eq in H.
  specialize (H Hq0 ltac:(lia) ltac:(lia) ltac:(lia)).
  assert (Hle : q * 2 ^ (ez + 1200) <= 1 * 2 ^ 1200) by (rewrite Hpow; nia).
  specialize (H Hle).
  assert (Hex : q * 2 ^ (ez + 1200) = 1 * 2 ^ 1200 ->
                new_location (Zpos mt) r = loc_Exact).
  { intros Heq. assert (q = 2 ^ (- ez)) by (rewrite Hpow in Heq; nia).
    assert (r = 0) by nia. subst r. apply new_location_zero. }
  specialize (H Hex).
  destruct (binary_round_aux prec emax false q ez (new_location (Zpos mt) r));
    try exact H.
  destruct H as (Hs & He & Hv). split; [exact Hs|]. split; [lia | exact Hv].
Qed.

(** [p / t * 100] is a double in [[0, 100]]. *)
Lemma raw_percent_le_100 (p t : Z) :
  0 <= p <= t -> 0 < t ->
  match raw_percent p t with
  | S754_zero s => s = false
  | S754_finite s m e =>
      s = false /\ -1200 <= e <= 0 /\ Zpos m * 2 ^ (e + 1200) <= 100 * 2 ^ 1200
  | _ => False
  end.
Proof.
  intros Hp Ht. unfold raw_percent.
  pose proof (fdiv_share_le_one p t Hp Ht) as Hq.
  change (PyFloat.of_Z 100) with (S754_finite false 7036874417766400 (-46)).
  destruct (PyFloat.fdiv (PyFloat.exact_of_Z p) (PyFloat.exact_of_Z t))
    as [s | s | | s mq eq]; try contradiction.
  - subst s. reflexivity.
  - destruct Hq as (-> & Heq & Hv). unfold PyFloat.fmul, SFmul. simpl xorb.
    change (Zpos (mq * 7036874417766400)) with (Zpos mq * 7036874417766400).
    set (m := Zpos mq * 7036874417766400).
    set (e := eq + -46).
    assert (HP : 0 < 2 ^ (e + 1200)) by (apply Z.pow_pos_nonneg; unfold e; lia).
    assert (Hsplit : 2 ^ (eq + 1200) = 2 ^ 46 * 2 ^ (e + 1200)).
    { unfold e. rewrite <- Z.pow_add_r by lia. f_equal. lia. }
    assert (Hle : m * 2 ^ (e + 1200) <= 100 * 2 ^ 1200).
    { unfold m. rewrite Hsplit in Hv. change (2 ^ 46) with 70368744177664 in Hv. nia. }
    assert (H2e : 0 < 2 ^ (- e)) by (apply Z.pow_pos_nonneg; unfold e; lia).
    assert (Hpow : 2 ^ 1200 = 2 ^ (- e) * 2 ^ (e + 1200)).
    { rewrite <- Z.pow_add_r by (unfold e; lia). f_equal. lia. }
    assert (Hdig : Zdigits2 m <= 7 - e).
    { apply FloatFacts.Zdigits2_le; [unfold e; lia|]. split; [unfold m; lia|].
      replace (7 - e) with (7 + - e) by lia.
      rewrite Z.pow_add_r by (unfold e; lia). change (2 ^ 7) with 128.
      rewrite Hpow in Hle. nia. }
    pose proof (binary_round_aux_le false m e loc_Exact 100) as H.
    cbv zeta in H. rewrite fexp_eq in H.
    specialize (H ltac:(unfold m; lia) ltac:(unfold e; lia) ltac:(unfold e in *; lia)
                  ltac:(lia) Hle ltac:(reflexivity)).
    destruct (binary_round_aux prec emax false m e loc_Exact); try exact H.
    destruct H as (Hs & He & Hv'). split; [exact Hs|].
    split; [unfold e in He; lia | exact Hv'].
Qed.

Lemma round_half_even_div_bounds (n d N : Z) :
  0 < d -> 0 <= n <= N * d -> 0 <= round_half_even_div n d <= N.
Proof.
  intros Hd [Hn HN]. unfold round_half_even_div.
  pose proof (Z.div_mod n d ltac:(lia)) as Hdm.
  pose proof (Z.mod_pos_bound n d Hd) as Hr.
  assert (0 <= n / d) by (apply Z.div_pos; lia).
  assert (n / d <= N) by (apply Z.div_le_upper_bound; lia).
  destruct (Z.eq_dec (n / d) N) as [Heq|Hne].
  - assert (n mod d = 0) by nia.
    replace (2 * (n mod d) ?= d) with Lt; [lia|].
    symmetry. apply Z.compare_lt_iff. lia.
  - destruct (2 * (n mod d) ?= d); [destruct (Z.even (n / d))| |]; lia.
Qed.

(** [round(x, 1)] of a double in [[0, 100]] is one of the doubles
    [0.0, 0.1, ..., 100.0]. *)
Lemma round1_tenths (x : spec_float) :
  match x with
  | S754_zero s => s = false
  | S754_finite s m e =>
      s = false /\ -1200 <= e <= 0 /\ Zpos m * 2 ^ (e + 1200) <= 100 * 2 ^ 1200
  | _ => False
  end ->
  exists k, 0 <= k <= 1000 /\ round1 x = tenths k.
Proof.
  destruct x as [s | s | | s m e]; try contradiction.
  - intros ->. exists 0. split; [lia | reflexivity].
  - intros (-> & He & Hv). unfold round1.
    destruct e as [|pe|pe]; try lia.
    + exists (10 * Zpos m * 2 ^ 0). split.
      * change (2 ^ (0 + 1200)) with (2 ^ 1200) in Hv.
        assert (0 < 2 ^ 1200) by (apply Z.pow_pos_nonneg; lia).
        change (2 ^ 0) with 1. nia.
      * change (10 * Zpos m * 2 ^ 0) with (Zpos (10 * m * 1)). reflexivity.
    + assert (H2p : 0 < 2 ^ Zpos pe) by (apply Z.pow_pos_nonneg; lia).
      assert (HP : 0 < 2 ^ (Zneg pe + 1200)) by (apply Z.pow_pos_nonneg; lia).
      assert (Hpow : 2 ^ 1200 = 2 ^ Zpos pe * 2 ^ (Zneg pe + 1200)).
      { rewrite <- Z.pow_add_r by lia. f_equal. lia. }
      assert (Hm : Zpos m <= 100 * 2 ^ Zpos pe) by (rewrite Hpow in Hv; nia).
      pose proof (round_half_even_div_bounds (10 * Zpos m) (2 ^ Zpos pe) 1000 H2p
                    ltac:(lia)) as Hk.
      exists (round_half_even_div (10 * Zpos m) (2 ^ Zpos pe)).
      split; [exact Hk|].
      destruct (round_half_even_div (10 * Zpos m) (2 ^ Zpos pe)) as [|k|k];
        try reflexivity. lia.
Qed.

(** All of them lie between 0.0 and 100.0. *)
Lemma tenths_table :
  forallb (fun n => in_percent_range (tenths (Z.of_nat n))) (seq 0 1001) = true.
Proof. vm_compute. reflexivity. Qed.

Lemma tenths_in_range (k : Z) :
  0 <= k <= 1000 -> in_percent_range (tenths k) = true.
Proof.
  intros Hk. pose proof tenths_table as H. rewrite forallb_forall in H.
  specialize (H (Z.to_nat k)). rewrite Z2Nat.id in H by lia.
  apply H. apply in_seq. lia.
Qed.

End FloatBounds.

(** X15: within the data model the productivity percentage is a decimal
    with one digit between 0.0 and 100.0.  On a readable store with
    seconds [>= 0] the report's [productivity_percent] is the double of
    [k / 10] for some whole [k] from 0 to 1000, so it is never negative,
    never above 100.0, and never an infinity or a NaN. *)
Theorem productivity_percent_range (clk : Clock) (user : string) (rnd : nat)
    (w : World) (data : Store) :
  load_data w = (Ok data, w) ->
  store_nonneg data ->
  exists (rep : Report) (k : Z),
    get_today_analysis clk user rnd w = (Ok rep, w) /\
    0 <= k <= 1000 /\
    productivity_percent rep = PyFloat.tenths k /\
    in_percent_range (productivity_percent rep) = true.
Proof.
  intros Hload Hnn.
  destruct (today_record_nonneg data (today_str clk) user Hnn) as (Hp & Hu & _).
  set (r := default empty_record (lookup_user_day data (today_str clk) user)) in *.
  assert (H0 : 0 <= productive r / 60) by (apply Z.div_pos; lia).
  assert (H1 : 0 <= unproductive r / 60) by (apply Z.div_pos; lia).
  assert (Hk : exists k, 0 <= k <= 1000 /\
                 rounded_percent (productive r / 60)
                   (productive r / 60 + unproductive r / 60) = PyFloat.tenths k).
  { unfold rounded_percent.
    destruct (Z.ltb_spec 0 (productive r / 60 + unproductive r / 60)) as [Hpos|Hz].
    - apply FloatBounds.round1_tenths, FloatBounds.raw_percent_le_100; lia.
    - exists 0. split; [lia | reflexivity]. }
  destruct Hk as (k & Hk & Heq).
  exists (expected_report data clk user rnd), k.
  split; [exact (get_today_analysis_run clk user rnd w data Hload Hnn)|].
  split; [exact Hk|]. simpl. fold r. rewrite Heq.
  split; [reflexivity | now apply FloatBounds.tenths_in_range].
Qed.

Lemma productivity_percent_range_witness :
  exists (rep : Report) (k : Z),
    get_today_analysis demo_clock "guest" 0 demo_world = (Ok rep, demo_world) /\
    0 <= k <= 1000 /\
    productivity_percent rep = PyFloat.tenths k /\
    in_percent_range (productivity_percent rep) = true.
Proof.
  apply (productivity_percent_range demo_clock "guest" 0 demo_world demo_store).
  - reflexivity.
  - exact demo_store_nonneg.
Defined.

(** ** What is logged is what the report shows *)

Lemma sites_get_nonneg (host : string) (s : Sites) (x : Z) :
  Forall (fun y => 0 <= y.2) s -> sites_get host s = Some x -> 0 <= x.
Proof.
  induction 1 as [|[k v] t Hv _ IH]; simpl; [discriminate|].
  destruct (String.eqb k host); [intros [= <-]; exact Hv | exact IH].
Qed.

Lemma sites_set_nonneg (host : string) (v : Z) (s : Sites) :
  0 <= v -> Forall (fun y => 0 <= y.2) s ->
  Forall (fun y => 0 <= y.2) (sites_set host v s).
Proof.
  intros Hv. induction 1 as [|[k x] t Hx Ht IH]; simpl.
  - repeat constructor. exact Hv.
  - destruct (String.eqb k host); constructor; assumption.
Qed.

Lemma apply_event_nonneg (c : option bool) (host : string) (d : Z) (r : DayUserRecord) :
  0 <= d -> record_nonneg r -> record_nonneg (apply_event c host d r).
Proof.
  intros Hd (Hp & Hu & Hs).
  destruct (apply_event_fields c host d r) as (Ep & Eu & _ & _ & _).
  unfold record_nonneg. rewrite Ep, Eu. unfold counted.
  split; [case_decide; lia|]. split; [case_decide; lia|].
  assert (Hsites : sites (apply_event c host d r) = sites (add_site host d r))
    by (unfold apply_event; destruct c as [[|]|]; reflexivity).
  rewrite Hsites. unfold add_site; simpl.
  destruct (sites_get host (sites r)) as [x|] eqn:E; simpl.
  - rewrite E. simpl. apply sites_set_nonneg; [|exact Hs].
    pose proof (sites_get_nonneg host (sites r) x Hs E). lia.
  - rewrite sites_get_set_eq. simpl.
    apply sites_set_nonneg; [lia|]. apply sites_set_nonneg; [lia | exact Hs].
Qed.

Section LogThenReport.

Variable urlparse_netloc : string -> option string.

Lemma record_event_nonneg (data : Store) (today url : string) (d : Z) (user : string) :
  0 <= d -> store_nonneg data ->
  store_nonneg (record_event urlparse_netloc data today url d user).
Proof.
  intros Hd Hnn date' user' r. rewrite record_event_lookup. case_decide.
  - intros [= <-]. apply apply_event_nonneg; [exact Hd|].
    now apply today_record_nonneg.
  - apply Hnn.
Qed.

(** X16: a request and then a report, on a readable store within the data
    model, with a duration [>= 0] and the save succeeding.  The report of
    the same user on the same day is a regular one, and its minutes are
    the seconds before the request plus the duration, floor-divided by
    60: the duration counts for [productive_minutes] on a productive
    host, for [unproductive_minutes] on an unproductive host, for neither
    on a neutral host. *)
Theorem log_then_report (clk : Clock) (url : string) (d : Z) (user : string)
    (rnd : nat) (w : World) (data : Store) :
  load_data w = (Ok data, w) ->
  store_nonneg data ->
  0 <= d ->
  let c := is_productive_site urlparse_netloc url in
  let before := default empty_record (lookup_user_day data (today_str clk) user) in
  let w' := (log_activity urlparse_netloc clk url d user SaveOk w).2 in
  exists rep : Report,
    get_today_analysis clk user rnd w' = (Ok rep, w') /\
    error rep = None /\
    productive_minutes rep
    = (productive before + (if c is Some true then d else 0)) / 60 /\
    unproductive_minutes rep
    = (unproductive before + (if c is Some false then d else 0)) / 60.
Proof.
  intros Hload Hnn Hd c before w'.
  set (data' := record_event urlparse_netloc data (today_str clk) url d user).
  assert (Hw' : w' = {| file := FData data'; stdout := stdout w |}).
  { unfold w'. now rewrite (log_activity_run _ _ _ _ _ _ _ _ Hload). }
  assert (Hload' : load_data w' = (Ok data', w')) by (rewrite Hw'; reflexivity).
  assert (Hnn' : store_nonneg data') by (now apply record_event_nonneg).
  exists (expected_report data' clk user rnd).
  split; [exact (get_today_analysis_run clk user rnd w' data' Hload' Hnn')|].
  split; [reflexivity|].
  unfold expected_report. cbn [productive_minutes unproductive_minutes].
  unfold data'. rewrite record_event_lookup, decide_True by tauto.
  cbn [default from_option id]. fold c before.
  destruct (apply_event_fields c (get_host urlparse_netloc url) d before)
    as (Ep & Eu & _).
  rewrite Ep, Eu. unfold counted.
  split; f_equal; f_equal; destruct c as [[|]|]; repeat case_decide; congruence.
Qed.

End LogThenReport.

Lemma log_then_report_witness :
  let w' := (log_activity UrlLib.urlsplit_netloc demo_clock "https://github.com/rocq"
               120 "guest" SaveOk demo_world).2 in
  exists rep : Report,
    get_today_analysis demo_clock "guest" 0 w' = (Ok rep, w') /\
    error rep = None /\
    productive_minutes rep = 12 /\
    unproductive_minutes rep = 5.
Proof.
  apply (log_then_report UrlLib.urlsplit_netloc demo_clock "https://github.com/rocq"
           120 "guest" 0 demo_world demo_store).
  - reflexivity.
  - exact demo_store_nonneg.
  - lia.
Defined.

(** ** The delta is a decimal between -100.0 and 100.0 *)

Module DeltaBounds.
Import PyFloat.

Lemma within_100_finite (s : bool) (m : positive) (e : Z) :
  within_100 (S754_finite s m e) = true <->
  -1200 <= e <= 0 /\ Zpos m * 2 ^ (e + 1200) <= 100 * 2 ^ 1200.
Proof.
  unfold within_100. rewrite !andb_true_iff, !Z.leb_le. tauto.
Qed.

Lemma pos_iter_xO (d m : positive) :
  Zpos (Pos.iter xO m d) = Zpos m * 2 ^ Zpos d.
Proof.
  induction d as [|d IH] using Pos.peano_ind.
  - simpl. lia.
  - rewrite Pos.iter_succ, Pos2Z.inj_xO, IH, Pos2Z.inj_succ, Z.pow_succ_r by lia. lia.
Qed.

Lemma shl_align_spec (mx : positive) (ex ex' : Z) :
  (shl_align mx ex ex').2 = Z.min ex ex' /\
  Zpos (shl_align mx ex ex').1 = Zpos mx * 2 ^ (ex - Z.min ex ex').
Proof.
  unfold shl_align. destruct (ex' - ex) as [|d|d] eqn:E; simpl.
  - split; [lia|]. replace (ex - Z.min ex ex') with 0 by lia. lia.
  - split; [lia|]. replace (ex - Z.min ex ex') with 0 by lia. lia.
  - split; [lia|]. rewrite pos_iter_xO. f_equal. f_equal. lia.
Qed.

Lemma binary_round_aux_opp (m e : Z) (l : location) :
  binary_round_aux prec emax true m e l
  = SFopp (binary_round_aux prec emax false m e l).
Proof.
  unfold binary_round_aux.
  destruct (shr_fexp prec emax m e l) as [mrs1 e1].
  destruct (shr_fexp prec emax _ e1 loc_Exact) as [mrs2 e2].
  destruct (shr_m mrs2); try reflexivity.
  destruct (e2 <=? emax - prec); reflexivity.
Qed.

Lemma SFopp_within_100 (x : spec_float) : within_100 (SFopp x) = within_100 x.
Proof. destruct x; reflexivity. Qed.

(** An exact number of size at most 100 rounds to a double of size at
    most 100. *)
Lemma binary_round_within (s : bool) (m : positive) (e : Z) :
  -1200 <= e <= 0 -> Zpos m * 2 ^ (e + 1200) <= 100 * 2 ^ 1200 ->
  within_100 (binary_round prec emax s m e) = true.
Proof.
  intros He Hv. unfold binary_round.
  destruct (shl_align_spec m e (fexp prec emax (Zpos (digits2_pos m) + e))) as [He' Hm'].
  destruct (shl_align m e (fexp prec emax (Zpos (digits2_pos m) + e))) as [mz ez].
  simpl in He', Hm'.
  assert (Hdm : Zpos (digits2_pos m) + e <= 7).
  { change (Zpos (digits2_pos m)) with (Zdigits2 (Zpos m)).
    assert (Zdigits2 (Zpos m) <= 7 - e); [|lia].
    apply FloatFacts.Zdigits2_le; [lia|]. split; [lia|].
    assert (0 < 2 ^ (e + 1200)) by (apply Z.pow_pos_nonneg; lia).
    assert (0 < 2 ^ (- e)) by (apply Z.pow_pos_nonneg; lia).
    assert (2 ^ 1200 = 2 ^ (- e) * 2 ^ (e + 1200))
      by (rewrite <- Z.pow_add_r by lia; f_equal; lia).
    replace (7 - e) with (7 + - e) by lia.
    rewrite Z.pow_add_r by lia. change (2 ^ 7) with 128. nia. }
  rewrite <- He' in Hm'. rewrite FloatBounds.fexp_eq in He'.
  assert (Hez : -1200 <= ez <= 0) by lia.
  assert (Hval : Zpos mz * 2 ^ (ez + 1200) = Zpos m * 2 ^ (e + 1200)).
  { rewrite Hm', <- Z.mul_assoc, <- Z.pow_add_r by lia. f_equal. f_equal. lia. }
  assert (Hdz : Zdigits2 (Zpos mz) + ez <= 7).
  { assert (Zdigits2 (Zpos mz) <= 7 - ez); [|lia].
    apply FloatFacts.Zdigits2_le; [lia|]. split; [lia|].
    assert (0 < 2 ^ (ez + 1200)) by (apply Z.pow_pos_nonneg; lia).
    assert (0 < 2 ^ (- ez)) by (apply Z.pow_pos_nonneg; lia).
    assert (2 ^ 1200 = 2 ^ (- ez) * 2 ^ (ez + 1200))
      by (rewrite <- Z.pow_add_r by lia; f_equal; lia).
    replace (7 - ez) with (7 + - ez) by lia.
    rewrite Z.pow_add_r by lia. change (2 ^ 7) with 128. nia. }
  assert (H : within_100 (binary_round_aux prec emax false (Zpos mz) ez loc_Exact) = true).
  { pose proof (FloatBounds.binary_round_aux_le false (Zpos mz) ez loc_Exact 100) as H.
    cbv zeta in H. rewrite FloatBounds.fexp_eq in H.
    specialize (H ltac:(lia) ltac:(lia) ltac:(lia) ltac:(lia) ltac:(lia) ltac:(reflexivity)).
    destruct (binary_round_aux prec emax false (Zpos mz) ez loc_Exact);
      try contradiction; [reflexivity|].
    apply within_100_finite. destruct H as (_ & H1 & H2). split; [lia | exact H2]. }
  destruct s; [|exact H].
  now rewrite binary_round_aux_opp, SFopp_within_100.
Qed.

(** The difference of two doubles in [[0, 100]] has size at most 100. *)
Lemma fsub_within (x y : spec_float) :
  match x with S754_finite true _ _ => False | _ => True end ->
  match y with S754_finite true _ _ => False | _ => True end ->
  within_100 x = true -> within_100 y = true ->
  within_100 (fsub x y) = true.
Proof.
  destruct x as [sx | sx | | sx mx ex]; try discriminate;
    destruct y as [sy | sy | | sy my ey]; try discriminate;
    intros Hsx Hsy Hx Hy.
  - unfold fsub, SFsub. destruct sx, sy; reflexivity.
  - exact Hy.
  - exact Hx.
  - destruct sx; [contradiction|]. destruct sy; [contradiction|].
    apply within_100_finite in Hx as [Hex Hvx].
    apply within_100_finite in Hy as [Hey Hvy].
    unfold fsub, SFsub. cbn [cond_Zopp].
    destruct (shl_align_spec mx ex (Z.min ex ey)) as [_ Hmx].
    destruct (shl_align_spec my ey (Z.min ex ey)) as [_ Hmy].
    replace (Z.min ex (Z.min ex ey)) with (Z.min ex ey) in Hmx by lia.
    replace (Z.min ey (Z.min ex ey)) with (Z.min ex ey) in Hmy by lia.
    set (ez := Z.min ex ey) in *.
    set (ax := Zpos (shl_align mx ex ez).1) in *.
    set (ay := Zpos (shl_align my ey ez).1) in *.
    assert (HP : 0 < 2 ^ (ez + 1200)) by (apply Z.pow_pos_nonneg; lia).
    assert (Hax : ax * 2 ^ (ez + 1200) = Zpos mx * 2 ^ (ex + 1200)).
    { rewrite Hmx, <- Z.mul_assoc, <- Z.pow_add_r by lia. f_equal. f_equal. lia. }
    assert (Hay : ay * 2 ^ (ez + 1200) = Zpos my * 2 ^ (ey + 1200)).
    { rewrite Hmy, <- Z.mul_assoc, <- Z.pow_add_r by lia. f_equal. f_equal. lia. }
    assert (0 < ax) by (unfold ax; lia). assert (0 < ay) by (unfold ay; lia).
    unfold binary_normalize.
    destruct (ax - ay) as [|d|d] eqn:Ed; [reflexivity| |].
    + apply binary_round_within; [lia|]. nia.
    + apply binary_round_within; [lia|].
      assert (Zpos d = ay - ax) by lia. nia.
Qed.

(** [round(x, 1)] of a double of size at most 100 is plus or minus one of
    [0.0, 0.1, ..., 100.0]. *)
Lemma round1_signed_tenths (x : spec_float) :
  within_100 x = true ->
  exists k, 0 <= k <= 1000 /\ (round1 x = tenths k \/ round1 x = SFopp (tenths k)).
Proof.
  destruct x as [s | s | | s m e]; try discriminate.
  - intros _. exists 0. split; [lia|]. destruct s; [right | left]; reflexivity.
  - intros H. apply within_100_finite in H as [He Hv].
    destruct (FloatBounds.round1_tenths (S754_finite false m e)) as (k & Hk & Hr).
    { split; [reflexivity|]. split; assumption. }
    exists k. split; [exact Hk|].
    destruct s; [right | left; exact Hr].
    rewrite <- Hr. unfold round1.
    destruct (match e with
              | Zneg p => round_half_even_div (10 * Zpos m) (2 ^ Zpos p)
              | _ => 10 * Zpos m * 2 ^ e
              end) as [|kp|kp]; try reflexivity.
    unfold fdiv, SFdiv, exact_of_Z.
    destruct (SFdiv_core_binary prec emax (Zpos kp) 0 10 0) as [[mz ez] lz].
    apply binary_round_aux_opp.
Qed.

Lemma tenths_within (k : Z) :
  0 <= k <= 1000 ->
  within_100 (tenths k) = true /\
  match tenths k with S754_finite true _ _ => False | _ => True end.
Proof.
  intros Hk.
  assert (H : forallb (fun n => within_100 (tenths (Z.of_nat n)) &&
                       match tenths (Z.of_nat n) with
                       | S754_finite true _ _ => false
                       | _ => true
                       end) (seq 0 1001) = true) by (vm_compute; reflexivity).
  rewrite forallb_forall in H. specialize (H (Z.to_nat k)).
  rewrite Z2Nat.id in H by lia.
  apply andb_true_iff in H as [H1 H2]; [|apply in_seq; lia].
  split; [exact H1|]. destruct (tenths k) as [| | |[] ? ?]; try exact I. discriminate.
Qed.

Lemma signed_tenths_in_range (k : Z) :
  0 <= k <= 1000 ->
  in_delta_range (tenths k) = true /\ in_delta_range (SFopp (tenths k)) = true.
Proof.
  intros Hk.
  assert (H : forallb (fun n => in_delta_range (tenths (Z.of_nat n)) &&
                       in_delta_range (SFopp (tenths (Z.of_nat n))))
                (seq 0 1001) = true) by (vm_compute; reflexivity).
  rewrite forallb_forall in H. specialize (H (Z.to_nat k)).
  rewrite Z2Nat.id in H by lia.
  apply andb_true_iff in H; [exact H | apply in_seq; lia].
Qed.

Lemma raw_percent_within (p t : Z) :
  0 <= p <= t -> 0 < t ->
  within_100 (raw_percent p t) = true /\
  match raw_percent p t with S754_finite true _ _ => False | _ => True end.
Proof.
  intros Hp Ht. pose proof (FloatBounds.raw_percent_le_100 p t Hp Ht) as H.
  destruct (raw_percent p t) as [s | s | | s m e]; try contradiction.
  - split; [reflexivity | exact I].
  - destruct H as (-> & He & Hv). split; [|exact I].
    apply within_100_finite. split; assumption.
Qed.

End DeltaBounds.

(** X17: within the data model the delta is a decimal with one digit
    between -100.0 and 100.0.  On a readable store with seconds [>= 0] the
    report's delta, when it is there, is plus or minus the double of
    [k / 10] for some whole [k] from 0 to 1000 (a negative zero can
    occur); it is never an infinity or a NaN. *)
Theorem delta_range (clk : Clock) (user : string) (rnd : nat)
    (w : World) (data : Store) :
  load_data w = (Ok data, w) ->
  store_nonneg data ->
  exists rep : Report,
    get_today_analysis clk user rnd w = (Ok rep, w) /\
    match delta_vs_yesterday_percent rep with
    | None => True
    | Some x =>
        (exists k, 0 <= k <= 1000 /\
                   (x = PyFloat.tenths k \/ x = SFopp (PyFloat.tenths k))) /\
        in_delta_range x = true
    end.
Proof.
  intros Hload Hnn.
  exists (expected_report data clk user rnd).
  split; [exact (get_today_analysis_run clk user rnd w data Hload Hnn)|].
  unfold expected_report. cbn [delta_vs_yesterday_percent].
  destruct (today_record_nonneg data (today_str clk) user Hnn) as (Hp & Hu & _).
  set (r := default empty_record (lookup_user_day data (today_str clk) user)) in *.
  assert (H0 : 0 <= productive r / 60) by (apply Z.div_pos; lia).
  assert (H1 : 0 <= unproductive r / 60) by (apply Z.div_pos; lia).
  set (pm := productive r / 60) in *. set (um := unproductive r / 60) in *.
  assert (Htoday : within_100 (rounded_percent pm (pm + um)) = true /\
                   match rounded_percent pm (pm + um) with
                   | S754_finite true _ _ => False | _ => True end).
  { unfold rounded_percent. destruct (Z.ltb_spec 0 (pm + um)) as [Hpos|Hz].
    - destruct (FloatBounds.round1_tenths (raw_percent pm (pm + um))) as (k & Hk & ->).
      + apply FloatBounds.raw_percent_le_100; lia.
      + now apply DeltaBounds.tenths_within.
    - split; [reflexivity | exact I]. }
  destruct Htoday as [Hw Hs].
  unfold delta_formula.
  destruct (lookup_user_day data (yesterday_str clk) user) as [y|] eqn:Ey; [|exact I].
  destruct (Hnn _ _ _ Ey) as (Hyp & Hyu & _).
  assert (0 <= productive y / 60) by (apply Z.div_pos; lia).
  assert (0 <= unproductive y / 60) by (apply Z.div_pos; lia).
  cbv zeta.
  destruct (Z.ltb_spec 0 (productive y / 60 + unproductive y / 60)) as [Hpos|Hz];
    [|exact I].
  destruct (DeltaBounds.raw_percent_within (productive y / 60)
              (productive y / 60 + unproductive y / 60)) as [Hyw Hys]; [lia | lia |].
  pose proof (DeltaBounds.fsub_within _ _ Hs Hys Hw Hyw) as Hsub.
  destruct (DeltaBounds.round1_signed_tenths _ Hsub) as (k & Hk & Hr).
  split; [exists k; split; [exact Hk | exact Hr]|].
  destruct (DeltaBounds.signed_tenths_in_range k Hk) as [Hpos' Hneg'].
  destruct Hr as [-> | ->]; assumption.
Qed.

Lemma delta_range_witness :
  exists rep : Report,
    get_today_analysis demo_clock "guest" 0 demo_world = (Ok rep, demo_world) /\
    match delta_vs_yesterday_percent rep with
    | None => True
    | Some x =>
        (exists k, 0 <= k <= 1000 /\
                   (x = PyFloat.tenths k \/ x = SFopp (PyFloat.tenths k))) /\
        in_delta_range x = true
    end.
Proof.
  apply (delta_range demo_clock "guest" 0 demo_world demo_store).
  - reflexivity.
  - exact demo_store_nonneg.
Defined.

(** ** A file that cannot be read stays so *)

(** X18: while the file cannot be read, nothing the program does changes
    that.  Every sequence of [/activity] requests leaves the world exactly
    as it was: each one is answered with the error and writes nothing.
    Every report is the fallback report with the text of the exception.
    The program has no path that rewrites such a file. *)
Theorem unreadable_file_stays (urlparse_netloc : string -> option string)
    (evs : list Event) (clk : Clock) (user : string) (rnd : nat)
    (w : World) (e : string) :
  file w = FUnreadable e ->
  replay urlparse_netloc evs w = w /\
  Forall (fun ev =>
            log_activity urlparse_netloc (ev_clock ev) (ev_url ev) (ev_duration ev)
              (ev_user ev) (ev_io ev) w
            = (Ok (ActivityError e), w)) evs /\
  get_today_analysis clk user rnd w = (Ok (fallback_report e), w).
Proof.
  intros Hf. split; [|split].
  - induction evs as [|ev evs IH]; simpl; [reflexivity|].
    unfold log_event. now rewrite (log_activity_unreadable _ _ _ _ _ _ _ _ Hf).
  - apply Forall_forall. intros ev _. now apply log_activity_unreadable.
  - unfold get_today_analysis, try_except, analysis_body, bind, load_data.
    now rewrite Hf.
Qed.

Lemma unreadable_file_stays_witness :
  let w := {| file := FUnreadable "Permission denied"; stdout := [] |} in
  replay UrlLib.urlsplit_netloc demo_events w = w /\
  get_today_analysis demo_clock "guest" 0 w
  = (Ok (fallback_report "Permission denied"), w).
Proof.
  intros w.
  destruct (unreadable_file_stays UrlLib.urlsplit_netloc demo_events demo_clock
              "guest" 0 w "Permission denied" eq_refl) as (H1 & _ & H3).
  split; assumption.
Defined.

(** ** No positive total, no percentage *)

(** X19: without a positive total the percentage is [0.0] and no
    division is tried.  On every readable store where yesterday's record
    of the user, if there is one, has seconds [>= 0]: when today's whole
    minutes add up to 0 or less, the report is a regular one (no
    [error]), with the minutes of today's record and [0.0] for the
    percentage.  This is the case of a user without a whole minute, where
    the division would be by zero, and also of seconds that cancel, as 50
    productive minutes against -50 unproductive ones. *)
Theorem percent_zero_without_total (clk : Clock) (user : string) (rnd : nat)
    (w : World) (data : Store) :
  load_data w = (Ok data, w) ->
  (forall y, lookup_user_day data (yesterday_str clk) user = Some y ->
             0 <= productive y /\ 0 <= unproductive y) ->
  let r := default empty_record (lookup_user_day data (today_str clk) user) in
  productive r / 60 + unproductive r / 60 <= 0 ->
  exists rep : Report,
    get_today_analysis clk user rnd w = (Ok rep, w) /\
    error rep = None /\
    productive_minutes rep = productive r / 60 /\
    unproductive_minutes rep = unproductive r / 60 /\
    productivity_percent rep = S754_zero false /\
    quote rep ∈ MOTIVATIONAL_QUOTES.
Proof.
  intros Hload Hy r Htm.
  unfold get_today_analysis, try_except, analysis_body, bind at 1.
  rewrite Hload.
  pose proof (get_user_day_data_snd data (today_str clk) user) as Hr.
  pose proof (get_user_day_data_lookup data (today_str clk) user
                (yesterday_str clk) user) as Hl.
  destruct (get_user_day_data data (today_str clk) user) as [data1 r1].
  simpl in Hr, Hl. subst r1. fold r in Hl |- *.
  unfold bind at 1, today_percent.
  destruct (Z.ltb_spec 0 (productive r / 60 + unproductive r / 60)); [lia|].
  unfold ret at 1. unfold bind.
  rewrite delta_vs_yesterday_run.
  - eexists. split; [reflexivity|]. repeat split. apply random_choice_in_pool.
  - intros y Hy1. rewrite Hl in Hy1. case_decide as Halias; [|now apply Hy].
    injection Hy1 as <-. destruct Halias as [Halias _].
    unfold r. destruct (lookup_user_day data (today_str clk) user) as [r0|] eqn:E.
    + apply Hy. now rewrite Halias.
    + simpl. lia.
Qed.

Lemma percent_zero_without_total_witness :
  let w := replay UrlLib.urlsplit_netloc
             [ {| ev_clock := demo_clock; ev_url := "https://github.com/";
                  ev_duration := 3000; ev_user := "guest"; ev_io := SaveOk |};
               {| ev_clock := demo_clock; ev_url := "https://www.youtube.com/";
                  ev_duration := -3000; ev_user := "guest"; ev_io := SaveOk |} ]
             fresh_world in
  exists rep : Report,
    get_today_analysis demo_clock "guest" 0 w = (Ok rep, w) /\
    error rep = None /\
    productive_minutes rep = 50 /\
    unproductive_minutes rep = -50 /\
    productivity_percent rep = S754_zero false.
Proof.
  intros w.
  destruct (percent_zero_without_total demo_clock "guest" 0 w (persisted w))
    as (rep & Hrun & He & Hp & Hu & Hz & _).
  - reflexivity.
  - intros y Hy. vm_compute in Hy. discriminate.
  - vm_compute. discriminate.
  - exists rep. split; [exact Hrun|]. split; [exact He|].
    split; [rewrite Hp; vm_compute; reflexivity|].
    split; [rewrite Hu; vm_compute; reflexivity | exact Hz].
Defined.
